(** * Curve Control: thermal learning and coordinator, shallow embedding

    Embedding of [custom_components/curve_control/thermal_learning.py] and of
    the parts of [custom_components/curve_control/__init__.py] that consume it
    ([CurveControlCoordinator._async_update_data], [get_current_setpoint]).

    Modelling choices:
    - Python floats are modelled as rationals [Q] (no rounding).
    - A [datetime] is an integer count of microseconds ([Z]); a [timedelta]
      is a difference of such counts; [total_seconds()] divides by 10^6.
    - JSON-like Python values (Home Assistant state attributes, the stored
      record, the optimizer response) are the inductive [pyval]; a Python
      dict is an association list, looked up by first match.
    - [datetime.isoformat], [datetime.fromisoformat], [float(str)] and the
      schedule builder are left abstract as section variables. *)

From Stdlib Require Import QArith Qabs ZArith Ascii String List Bool Lia HexString DecimalString Lqa.
Import ListNotations.
Open Scope string_scope.
Open Scope list_scope.
Set Warnings "-register-all".

(** ** Python values *)

Inductive pyval : Type :=
| PNone
| PNum (q : Q)
| PStr (s : string)
| PList (l : list pyval)
| PDict (kvs : list (string * pyval)).

Definition dict := list (string * pyval).

(** [d.get(k)]: the value bound to [k], if any. *)
Fixpoint dict_get (d : dict) (k : string) : option pyval :=
  match d with
  | [] => None
  | (k', v) :: d' => if String.eqb k' k then Some v else dict_get d' k
  end.

(** [d.get(k, default)] *)
Definition dict_get_default (d : dict) (k : string) (dflt : pyval) : pyval :=
  match dict_get d k with Some v => v | None => dflt end.

(** Python truthiness of a value ([if v:]). *)
Definition truthy (v : pyval) : bool :=
  match v with
  | PNone => false
  | PNum q => negb (Qeq_bool q 0)
  | PStr s => negb (String.eqb s "")
  | PList l => match l with [] => false | _ => true end
  | PDict kvs => match kvs with [] => false | _ => true end
  end.

(** [v == "s"] for a Python value [v] and a string literal. *)
Definition is_str (v : pyval) (s : string) : bool :=
  match v with PStr s' => String.eqb s' s | _ => false end.

(** Strict comparison on [Q] as a boolean. *)
Definition Qltb (a b : Q) : bool := negb (Qle_bool b a).

(** ** Constants ([const.py], [thermal_learning.py]) *)

Definition COOL_30MIN : Q := 19335 # 10000.
Definition HEAT_30MIN : Q := 5535 # 10000.

Definition MIN_TEMP_CHANGE : Q := 1 # 2.
Definition MAX_TEMP_CHANGE : Q := 10.
Definition MIN_INTERVAL_MINUTES : Q := 20.
Definition MAX_INTERVAL_MINUTES : Q := 60.
Definition MIN_SAMPLES_FOR_CALCULATION : nat := 5.
Definition ROLLING_WINDOW_DAYS : Z := 7.

(** [deque(maxlen=1000)] *)
Definition THERMAL_DATA_MAXLEN : nat := 1000.

(** ** Time *)

Definition USEC_PER_SEC : Z := 1000000.

(** [timedelta(days=d)] and [timedelta(hours=h)] in microseconds. *)
Definition timedelta_days (d : Z) : Z := d * 86400 * USEC_PER_SEC.
Definition timedelta_hours (h : Z) : Z := h * 3600 * USEC_PER_SEC.

(** [td.total_seconds()] *)
Definition total_seconds (td : Z) : Q := inject_Z td / inject_Z USEC_PER_SEC.

(** ** [collections.deque] with a [maxlen]

    CPython's [deque.append] on a bounded deque appends on the right and,
    when the size then exceeds [maxlen], pops one element on the left. *)

Definition deque_append {A} (maxlen : nat) (d : list A) (x : A) : list A :=
  let d' := d ++ [x] in
  if Nat.ltb maxlen (length d') then tl d' else d'.

(** ** [ThermalDataPoint] *)

Record ThermalDataPoint := mkThermalDataPoint {
  timestamp : Z;
  temp_start : Q;
  temp_end : Q;
  hvac_action : pyval;
  interval_minutes : Q
}.

(** [self.temp_change = temp_end - temp_start] *)
Definition temp_change (p : ThermalDataPoint) : Q := temp_end p - temp_start p.

(** [self.rate_per_30min = (temp_change / interval_minutes) * 30
                           if interval_minutes > 0 else 0] *)
Definition rate_per_30min (p : ThermalDataPoint) : Q :=
  if Qltb 0 (interval_minutes p) then (temp_change p / interval_minutes p) * 30
  else 0.

(** ** [ThermalLearningManager] state *)

(** [self.last_measurement]: [{'timestamp', 'temperature', 'hvac_action'}] *)
Record measurement := mkMeasurement {
  m_timestamp : Z;
  m_temperature : Q;
  m_hvac_action : pyval
}.

(** The rate fields hold whatever was assigned to them (a float computed by
    [_async_calculate_rates] or a value read back from storage); [PNone]
    is Python's [None], i.e. "unset". [store] is the content of the Home
    Assistant [Store] of this thermostat ([None] when nothing was saved). *)
Record manager := mkManager {
  thermal_data : list ThermalDataPoint;
  last_measurement : option measurement;
  heating_rate : pyval;
  cooling_rate : pyval;
  natural_rate : pyval;
  last_calculation : option Z;
  store : option pyval
}.

(** [ThermalLearningManager.__init__], with the store's current content. *)
Definition init_manager (stored : option pyval) : manager :=
  mkManager [] None PNone PNone PNone None stored.

Definition set_thermal_data (s : manager) (d : list ThermalDataPoint) : manager :=
  mkManager d (last_measurement s) (heating_rate s) (cooling_rate s)
    (natural_rate s) (last_calculation s) (store s).

Definition set_last_measurement (s : manager) (m : option measurement) : manager :=
  mkManager (thermal_data s) m (heating_rate s) (cooling_rate s)
    (natural_rate s) (last_calculation s) (store s).

Definition set_rates (s : manager) (h c n : pyval) : manager :=
  mkManager (thermal_data s) (last_measurement s) h c n
    (last_calculation s) (store s).

Definition set_last_calculation (s : manager) (t : option Z) : manager :=
  mkManager (thermal_data s) (last_measurement s) (heating_rate s)
    (cooling_rate s) (natural_rate s) t (store s).

Definition set_store (s : manager) (v : option pyval) : manager :=
  mkManager (thermal_data s) (last_measurement s) (heating_rate s)
    (cooling_rate s) (natural_rate s) (last_calculation s) v.

(** ** Operations of [ThermalLearningManager] *)

Section ThermalLearning.

(** [float(s)] on a [str]: [None] when it raises [ValueError]. *)
Variable str_to_float : string -> option Q.
(** [datetime.isoformat()] and [datetime.fromisoformat(s)] ([None] when it
    raises [ValueError]). *)
Variable isoformat : Z -> string.
Variable fromisoformat : string -> option Z.

(** [float(v)]: a number is kept, a string is parsed, anything else
    ([None], a list, a dict) raises [TypeError]. Both [ValueError] and
    [TypeError] are caught alike by the callers, so both are [None] here. *)
Definition py_float (v : pyval) : option Q :=
  match v with
  | PNum q => Some q
  | PStr s => str_to_float s
  | _ => None
  end.

(** *** [_async_save_data] *)

Definition point_to_json (p : ThermalDataPoint) : pyval :=
  PDict [("timestamp", PStr (isoformat (timestamp p)));
         ("temp_start", PNum (temp_start p));
         ("temp_end", PNum (temp_end p));
         ("hvac_action", hvac_action p);
         ("interval_minutes", PNum (interval_minutes p))].

Definition save_record (s : manager) : pyval :=
  PDict [("thermal_data", PList (map point_to_json (thermal_data s)));
         ("heating_rate", heating_rate s);
         ("cooling_rate", cooling_rate s);
         ("natural_rate", natural_rate s);
         ("last_calculation",
            match last_calculation s with
            | Some t => PStr (isoformat t)
            | None => PNone
            end)].

(** [await self.store.async_save(data)] replaces the stored snapshot. *)
Definition async_save_data (s : manager) : manager :=
  set_store s (Some (save_record s)).

(** *** [_async_calculate_rates] *)

Definition cutoff_date (now : Z) : Z := now - timedelta_days ROLLING_WINDOW_DAYS.

(** [[point for point in self.thermal_data if point.timestamp > cutoff_date]] *)
Definition recent_data (now : Z) (d : list ThermalDataPoint) : list ThermalDataPoint :=
  filter (fun p => Z.ltb (cutoff_date now) (timestamp p)) d.

(** One iteration of the [if/elif/elif] loop that fills
    [heating_rates], [cooling_rates] and [natural_rates]. *)
Definition classify_step (acc : list Q * list Q * list Q) (p : ThermalDataPoint)
  : list Q * list Q * list Q :=
  let '(hs, cs, ns) := acc in
  if is_str (hvac_action p) "heating" && Qltb 0 (temp_change p) then
    (hs ++ [rate_per_30min p], cs, ns)
  else if is_str (hvac_action p) "cooling" && Qltb (temp_change p) 0 then
    (hs, cs ++ [Qabs (rate_per_30min p)], ns)
  else if is_str (hvac_action p) "idle" || is_str (hvac_action p) "off" then
    (hs, cs, ns ++ [rate_per_30min p])
  else (hs, cs, ns).

(** [sum(l)]: left fold from [0]. *)
Definition py_sum (l : list Q) : Q := fold_left Qplus l 0.

(** [sum(l) / len(l)] *)
Definition py_mean (l : list Q) : Q := py_sum l / inject_Z (Z.of_nat (length l)).

(** [if len(rates) >= MIN_SAMPLES_FOR_CALCULATION: rate = sum/len];
    otherwise the field is not assigned. *)
Definition update_rate (rates : list Q) (old : pyval) : pyval :=
  if Nat.leb MIN_SAMPLES_FOR_CALCULATION (length rates) then PNum (py_mean rates)
  else old.

Definition async_calculate_rates (s : manager) (now : Z) : manager :=
  let '(hs, cs, ns) :=
    fold_left classify_step (recent_data now (thermal_data s)) ([], [], []) in
  let s1 := set_rates s (update_rate hs (heating_rate s))
                        (update_rate cs (cooling_rate s))
                        (update_rate ns (natural_rate s)) in
  async_save_data (set_last_calculation s1 (Some now)).

(** *** [_async_process_state_change]

    [attributes] is [state.attributes]; [now] is the [datetime.now()] read
    by this method and [now_calc] the one read by [_async_calculate_rates]
    when it is called. *)

(** [self.last_calculation is None or now - self.last_calculation > timedelta(hours=1)] *)
Definition recalculation_due (s : manager) (now : Z) : bool :=
  match last_calculation s with
  | None => true
  | Some t => Z.ltb (timedelta_hours 1) (now - t)
  end.

Definition async_process_state_change (s : manager) (attributes : dict)
  (now now_calc : Z) : manager :=
  match py_float (dict_get_default attributes "current_temperature" (PNum 0)) with
  | None => s (* ValueError / TypeError: logged, nothing changed *)
  | Some current_temp =>
    let action := dict_get_default attributes "hvac_action" (PStr "unknown") in
    let new_measurement := mkMeasurement now current_temp action in
    match last_measurement s with
    | None => set_last_measurement s (Some new_measurement)
    | Some lm =>
      let interval := total_seconds (now - m_timestamp lm) / 60 in
      let s1 :=
        if Qle_bool MIN_INTERVAL_MINUTES interval && Qle_bool interval MAX_INTERVAL_MINUTES then
          let tc := current_temp - m_temperature lm in
          if Qle_bool MIN_TEMP_CHANGE (Qabs tc) && Qle_bool (Qabs tc) MAX_TEMP_CHANGE then
            let data_point :=
              mkThermalDataPoint now (m_temperature lm) current_temp (m_hvac_action lm) interval in
            let s2 := set_thermal_data s
                        (deque_append THERMAL_DATA_MAXLEN (thermal_data s) data_point) in
            if recalculation_due s2 now then async_calculate_rates s2 now_calc else s2
          else s
        else s in
      set_last_measurement s1 (Some new_measurement)
    end
  end.

(** [_record_initial_state] *)
Definition record_initial_state (s : manager) (attributes : dict) (now : Z) : manager :=
  match py_float (dict_get_default attributes "current_temperature" (PNum 0)) with
  | None => s
  | Some current_temp =>
    set_last_measurement s
      (Some (mkMeasurement now current_temp
               (dict_get_default attributes "hvac_action" (PStr "unknown"))))
  end.

(** [get_thermal_rates_with_fallback]: [(heating, cooling, natural)] *)
Definition get_thermal_rates_with_fallback (s : manager) : pyval * pyval * pyval :=
  (match heating_rate s with PNone => PNum (HEAT_30MIN * 3) | r => r end,
   match cooling_rate s with PNone => PNum COOL_30MIN | r => r end,
   match natural_rate s with PNone => PNum HEAT_30MIN | r => r end).

End ThermalLearning.

(** *** [_async_load_data] *)

(** Outcome of one loop iteration over the stored points: a point, a
    [KeyError]/[ValueError] caught by the inner [except] (the entry is
    skipped), or any other exception, which leaves the loop and is caught by
    the outer [except Exception] (the rest of the load is abandoned). *)
Inductive load_outcome (A : Type) : Type :=
| LOk (a : A)
| LSkip
| LAbort.
Arguments LOk {A} a.
Arguments LSkip {A}.
Arguments LAbort {A}.

Definition load_bind {A B} (r : load_outcome A) (f : A -> load_outcome B) : load_outcome B :=
  match r with
  | LOk a => f a
  | LSkip => LSkip
  | LAbort => LAbort
  end.

Notation "x <- r ;; k" := (load_bind r (fun x => k))
  (at level 61, r at next level, right associativity).

(** [point_data[key]]: [KeyError] on a dict without [key], [TypeError] on
    any other value. *)
Definition subscript (v : pyval) (key : string) : load_outcome pyval :=
  match v with
  | PDict kvs => match dict_get kvs key with Some x => LOk x | None => LSkip end
  | _ => LAbort
  end.

(** [for x in v]: a list yields its items, a dict its keys, a string its
    characters; anything else raises [TypeError]. *)
Definition py_iter (v : pyval) : option (list pyval) :=
  match v with
  | PList l => Some l
  | PDict kvs => Some (map (fun kv => PStr (fst kv)) kvs)
  | PStr str => Some (map (fun c => PStr (String c EmptyString)) (list_ascii_of_string str))
  | _ => None
  end.

Section Load.

Variable fromisoformat : string -> option Z.

(** The body of the inner [try]: keyword arguments evaluated left to right,
    then [ThermalDataPoint.__init__], whose [temp_end - temp_start] and
    [interval_minutes > 0] raise [TypeError] on non-numbers. *)
Definition load_point (point_data : pyval) : load_outcome ThermalDataPoint :=
  ts_raw <- subscript point_data "timestamp" ;;
  ts <- match ts_raw with
        | PStr str => match fromisoformat str with Some t => LOk t | None => LSkip end
        | _ => LAbort
        end ;;
  t_start <- subscript point_data "temp_start" ;;
  t_end <- subscript point_data "temp_end" ;;
  action <- subscript point_data "hvac_action" ;;
  interval <- subscript point_data "interval_minutes" ;;
  match t_start, t_end, interval with
  | PNum a, PNum b, PNum i => LOk (mkThermalDataPoint ts a b action i)
  | _, _, _ => LAbort
  end.

(** The loop: appends each loaded point to the bounded deque; the boolean
    tells whether an exception left the loop. *)
Fixpoint load_points (d : list ThermalDataPoint) (items : list pyval)
  : list ThermalDataPoint * bool :=
  match items with
  | [] => (d, false)
  | it :: rest =>
    match load_point it with
    | LOk p => load_points (deque_append THERMAL_DATA_MAXLEN d p) rest
    | LSkip => load_points d rest
    | LAbort => (d, true)
    end
  end.

Definition async_load_data (s : manager) : manager :=
  match store s with
  | None => s
  | Some data =>
    if negb (truthy data) then s else
    match data with
    | PDict kvs =>
      match py_iter (dict_get_default kvs "thermal_data" (PList [])) with
      | None => s
      | Some items =>
        let '(d, aborted) := load_points (thermal_data s) items in
        let s1 := set_thermal_data s d in
        if aborted then s1 else
        let s2 := set_rates s1
          (dict_get_default kvs "heating_rate" (dict_get_default kvs "heat_up_rate" PNone))
          (dict_get_default kvs "cooling_rate" (dict_get_default kvs "cool_down_rate" PNone))
          (dict_get_default kvs "natural_rate" PNone) in
        let lc := dict_get_default kvs "last_calculation" PNone in
        if truthy lc then
          match lc with
          | PStr str =>
            match fromisoformat str with
            | Some t => set_last_calculation s2 (Some t)
            | None => s2
            end
          | _ => s2
          end
        else s2
      end
    | _ => s (* AttributeError on [data.get], caught *)
    end
  end.

End Load.

(** *** Reachable manager states

    Every state the code can put a manager in: construction with whatever
    the store holds, then any sequence of loads, initial-state recordings,
    processed state changes, recomputations and saves. *)
Inductive reachable (str_to_float : string -> option Q) (isoformat : Z -> string)
  (fromisoformat : string -> option Z) : manager -> Prop :=
| reach_init stored : reachable str_to_float isoformat fromisoformat (init_manager stored)
| reach_load s :
    reachable str_to_float isoformat fromisoformat s ->
    reachable str_to_float isoformat fromisoformat (async_load_data fromisoformat s)
| reach_initial s attributes now :
    reachable str_to_float isoformat fromisoformat s ->
    reachable str_to_float isoformat fromisoformat
      (record_initial_state str_to_float s attributes now)
| reach_process s attributes now now_calc :
    reachable str_to_float isoformat fromisoformat s ->
    reachable str_to_float isoformat fromisoformat
      (async_process_state_change str_to_float isoformat s attributes now now_calc)
| reach_calculate s now :
    reachable str_to_float isoformat fromisoformat s ->
    reachable str_to_float isoformat fromisoformat (async_calculate_rates isoformat s now)
| reach_save s :
    reachable str_to_float isoformat fromisoformat s ->
    reachable str_to_float isoformat fromisoformat (async_save_data isoformat s).

(** ** [CurveControlCoordinator] *)

(** Python tuple unpacking [a, b = t]: [ValueError] unless [t] has exactly
    two items. *)
Definition unpack2 {A} (t : list A) : option (A * A) :=
  match t with
  | [a; b] => Some (a, b)
  | _ => None
  end.

Definition tuple3_items {A} (t : A * A * A) : list A :=
  let '(a, b, c) := t in [a; b; c].

Record coordinator := mkCoordinator {
  config : dict;
  heat_up_rate : pyval;
  cool_down_rate : pyval;
  thermal_learning : option manager;
  custom_temperature_schedule : pyval
}.

(** Result of [_async_update_data] up to the POST: either the coordinator
    and the request body it sends to [/generate_schedule], or
    [UpdateFailed] raised from the [except] clauses. *)
Inductive update_outcome :=
| Posted (c : coordinator) (request_data : dict)
| UpdateFailed.

Definition dict_set (d : dict) (k : string) (v : pyval) : dict :=
  if existsb (fun kv => String.eqb (fst kv) k) d
  then map (fun kv => if String.eqb (fst kv) k then (k, v) else kv) d
  else d ++ [(k, v)].

Section Coordinator.

(** [self._build_30min_temperature_schedule()], not needed by the claims
    about the rate fields of the request. *)
Variable build_30min_temperature_schedule : coordinator -> pyval.

(** [_async_update_data] up to the POST. [thermostat_temp] is the
    [current_temperature] attribute of the thermostat's state when a
    thermostat entity is configured and has a state. *)
Definition async_update_data (c : coordinator) (thermostat_temp : option pyval)
  : update_outcome :=
  let c1 :=
    match thermostat_temp with
    | Some t => if truthy t then
                  mkCoordinator (dict_set (config c) "homeTemperature" t)
                    (heat_up_rate c) (cool_down_rate c) (thermal_learning c)
                    (custom_temperature_schedule c)
                else c
    | None => c
    end in
  let rates :=
    match thermal_learning c1 with
    | Some tl =>
      match unpack2 (tuple3_items (get_thermal_rates_with_fallback tl)) with
      | Some (h, k) => Some (mkCoordinator (config c1) h k (thermal_learning c1)
                               (custom_temperature_schedule c1))
      | None => None (* ValueError: too many values to unpack *)
      end
    | None => Some c1
    end in
  match rates with
  | None => UpdateFailed
  | Some c2 =>
    let schedule_data :=
      if truthy (custom_temperature_schedule c2) then custom_temperature_schedule c2
      else build_30min_temperature_schedule c2 in
    (* [{**self.config, "temperatureSchedule": ..., "heatUpRate": ...,
         "coolDownRate": ...}] *)
    Posted c2 (dict_set (dict_set (dict_set (config c2)
                 "temperatureSchedule" schedule_data)
                 "heatUpRate" (heat_up_rate c2))
                 "coolDownRate" (cool_down_rate c2))
  end.

End Coordinator.

(** *** [get_current_setpoint] *)

(** The value a Python call returns, or an exception. *)
Inductive py_result :=
| Returns (v : pyval)
| Raises.

(** [len(v)]: [None] when it raises [TypeError]. *)
Definition py_len (v : pyval) : option nat :=
  match v with
  | PList l => Some (length l)
  | PDict kvs => Some (length kvs)
  | PStr str => Some (String.length str)
  | _ => None
  end.

(** [v[i]] for [0 <= i < len(v)]. *)
Definition py_index (v : pyval) (i : nat) : py_result :=
  match v with
  | PList l => match nth_error l i with Some x => Returns x | None => Raises end
  | PStr str => match String.get i str with
                | Some ch => Returns (PStr (String ch EmptyString))
                | None => Raises
                end
  | _ => Raises (* a dict has string keys: KeyError *)
  end.

(** [optimization_results] is [self.optimization_results] (the response
    dict, or [None]); [hour] and [minute] are those of [datetime.now()]. *)
Definition get_current_setpoint (optimization_results : option dict)
  (hour minute : nat) : py_result :=
  match optimization_results with
  | None => Returns PNone
  | Some res =>
    if negb (truthy (PDict res)) then Returns PNone else
    let best_temps := dict_get_default res "bestTempActual" (PList []) in
    if negb (truthy best_temps) then Returns PNone else
    let interval := (hour * 2 + minute / 30)%nat in
    match py_len best_temps with
    | None => Raises
    | Some n => if Nat.ltb interval n then py_index best_temps interval else Returns PNone
    end
  end.

(** *** The rest of [ThermalLearningManager] *)

Section ThermalLearningMore.

Variable str_to_float : string -> option Q.
Variable isoformat : Z -> string.
Variable fromisoformat : string -> option Z.

(** [has_sufficient_data]; [now] is its [datetime.now()]. [sum(1 for p in
    recent_data if ...)] counts the points of a filter. *)
Definition has_sufficient_data (s : manager) (now : Z) : bool :=
  let recent := recent_data now (thermal_data s) in
  let heating_count :=
    length (filter (fun p => is_str (hvac_action p) "heating" && Qltb 0 (temp_change p)) recent) in
  let cooling_count :=
    length (filter (fun p => is_str (hvac_action p) "cooling" && Qltb (temp_change p) 0) recent) in
  let natural_count :=
    length (filter (fun p => is_str (hvac_action p) "idle" || is_str (hvac_action p) "off") recent) in
  let sufficient_categories :=
    (Nat.b2n (Nat.leb MIN_SAMPLES_FOR_CALCULATION heating_count) +
     Nat.b2n (Nat.leb MIN_SAMPLES_FOR_CALCULATION cooling_count) +
     Nat.b2n (Nat.leb MIN_SAMPLES_FOR_CALCULATION natural_count))%nat in
  Nat.leb 2 sufficient_categories.



(** [get_thermal_rates]: [(heating, cooling, natural)] *)
Definition get_thermal_rates (s : manager) : pyval * pyval * pyval :=
  (heating_rate s, cooling_rate s, natural_rate s).

(** [_async_state_changed_listener]: [new_state] is [event.data.get("new_state")]
    as the state string and the attributes of the [State] (a [State] object is
    always truthy); the task it schedules is [_async_process_state_change]. *)
Definition async_state_changed_listener (s : manager) (new_state : option (string * dict))
  (now now_calc : Z) : manager :=
  match new_state with
  | None => s
  | Some (state, attributes) =>
    if String.eqb state "unavailable" || String.eqb state "unknown" then s
    else async_process_state_change str_to_float isoformat s attributes now now_calc
  end.

(** [async_setup]: [_async_load_data], then [_start_state_monitoring], which
    records the thermostat's current state ([initial_state], its attributes,
    when [hass.states.get] finds one), then [_async_calculate_rates].
    [now_init] and [now_calc] are the [datetime.now()] of the last two. *)
Definition async_setup (s : manager) (initial_state : option dict) (now_init now_calc : Z)
  : manager :=
  let s1 := async_load_data fromisoformat s in
  let s2 := match initial_state with
            | Some attributes => record_initial_state str_to_float s1 attributes now_init
            | None => s1
            end in
  async_calculate_rates isoformat s2 now_calc.

(** [async_cleanup]: unsubscribes the listener and saves. *)
Definition async_cleanup (s : manager) : manager := async_save_data isoformat s.


End ThermalLearningMore.

(** [CurveControlThermalLearningSensor.native_value]; [tl] is the
    coordinator's [thermal_learning] and [now] the [datetime.now()] of
    [has_sufficient_data]. *)
Definition thermal_learning_status (tl : option manager) (now : Z) : string :=
  match tl with
  | None => "Disabled"
  | Some s => if has_sufficient_data s now then "Learning Complete" else "Learning"
  end.

(** *** The 30-minute comfort schedule ([_build_30min_temperature_schedule]) *)

Definition DEADBAND_OFFSET : Q := 7 # 5.
Definition INTERVALS_PER_DAY : nat := 48.

(** A decimal digit ([\d]; the strings of this development are ASCII). *)
Definition ascii_digit (c : ascii) : option nat :=
  let n := nat_of_ascii c in
  if Nat.leb 48 n && Nat.leb n 57 then Some (n - 48)%nat else None.

(** [datetime.strptime(s, "%H:%M")]: [_strptime] matches [s] with
    [(?P<H>2[0-3]|[0-1]\d|\d):(?P<M>[0-5]\d|\d)] ([re.match], alternatives
    tried in order with backtracking) and raises [ValueError] when there is no
    match or when the match does not reach the end of [s]
    ("unconverted data remains"). *)

(** The matches of the [H] group at the start of [cs], in the order the
    alternatives are tried, with what follows each. *)
Definition re_H (cs : list ascii) : list (nat * list ascii) :=
  (match cs with
   | c1 :: c2 :: r =>
     match ascii_digit c1, ascii_digit c2 with
     | Some 2%nat, Some d => if Nat.leb d 3 then [((20 + d)%nat, r)] else []
     | _, _ => []
     end
   | _ => []
   end) ++
  (match cs with
   | c1 :: c2 :: r =>
     match ascii_digit c1, ascii_digit c2 with
     | Some a, Some b => if Nat.leb a 1 then [((10 * a + b)%nat, r)] else []
     | _, _ => []
     end
   | _ => []
   end) ++
  (match cs with
   | c1 :: r => match ascii_digit c1 with Some a => [(a, r)] | None => [] end
   | _ => []
   end).

(** The first match of the [M] group at the start of [cs]. *)
Definition re_M (cs : list ascii) : option (nat * list ascii) :=
  let two :=
    match cs with
    | c1 :: c2 :: r =>
      match ascii_digit c1, ascii_digit c2 with
      | Some a, Some b => if Nat.leb a 5 then Some ((10 * a + b)%nat, r) else None
      | _, _ => None
      end
    | _ => None
    end in
  match two with
  | Some x => Some x
  | None =>
    match cs with
    | c1 :: r => match ascii_digit c1 with Some a => Some (a, r) | None => None end
    | _ => None
    end
  end.

(** The first [H] alternative followed by [":"] and an [M] match. *)
Fixpoint re_match_HM (hs : list (nat * list ascii)) : option (nat * nat * list ascii) :=
  match hs with
  | [] => None
  | (h, r) :: hs' =>
    match r with
    | c :: r' =>
      if Ascii.eqb c ":"%char then
        match re_M r' with
        | Some (m, rest) => Some (h, m, rest)
        | None => re_match_HM hs'
        end
      else re_match_HM hs'
    | [] => re_match_HM hs'
    end
  end.

Definition strptime_HM (s : string) : option (nat * nat) :=
  match re_match_HM (re_H (list_ascii_of_string s)) with
  | Some (h, m, []) => Some (h, m)
  | _ => None
  end.

(** [_time_to_30min_index]. [str(v)] of a value that is not a string
    ([None], a number, a list, a dict) never has a [":"] after one or two
    leading digits, so [strptime] raises [ValueError] on it. *)
Definition time_to_30min_index (time_str : pyval) : nat :=
  match time_str with
  | PStr s =>
    match strptime_HM (substring 0 5 s) with
    | Some (h, m) => ((h * 60 + m) / 30)%nat
    | None => 16
    end
  | _ => 16
  end.

(** [_calculate_savings_offset]: [{1: 2, 2: 6, 3: 12}.get(savings_level, 6)];
    a number equal to a key finds it; a list or a dict is unhashable
    ([TypeError], [None] here). *)
Definition calculate_savings_offset (savings_level : pyval) : option Q :=
  match savings_level with
  | PNum q => Some (if Qeq_bool q 1 then 2 else if Qeq_bool q 2 then 6
                    else if Qeq_bool q 3 then 12 else 6)
  | PList _ | PDict _ => None
  | _ => Some 6
  end.

(** [_build_30min_temperature_schedule] over [self.config]; [None] when it
    raises ([KeyError] on a missing key, [TypeError] from the savings map or
    from [base_temp + ...] on a base temperature that is not a number). *)
Definition build_30min_temperature_schedule (config : dict) : option pyval :=
  match dict_get config "homeTemperature", dict_get config "timeAway",
        dict_get config "timeHome", dict_get config "savingsLevel" with
  | Some base_temp, Some away_time, Some home_time, Some savings_level =>
    let away_interval := time_to_30min_index away_time in
    let home_interval := time_to_30min_index home_time in
    match calculate_savings_offset savings_level, base_temp with
    | Some savings_offset, PNum b =>
      let away i := Nat.leb away_interval i && Nat.leb i home_interval in
      let slots := seq 0 INTERVALS_PER_DAY in
      Some (PDict
        [("highTemperatures",
            PList (map (fun i => PNum (if away i then b + savings_offset + DEADBAND_OFFSET
                                       else b + DEADBAND_OFFSET)) slots));
         ("lowTemperatures",
            PList (map (fun i => PNum (if away i then b - savings_offset - DEADBAND_OFFSET
                                       else b - DEADBAND_OFFSET)) slots));
         ("intervalMinutes", PNum 30);
         ("totalIntervals", PNum (inject_Z (Z.of_nat INTERVALS_PER_DAY)))])
    | _, _ => None
    end
  | _, _, _, _ => None
  end.

(** *** [async_update_schedule] *)

Section UpdateSchedule.

(** [str(v)] of a value that is not a string. *)
Variable py_str_other : pyval -> string.

Definition py_str (v : pyval) : string :=
  match v with PStr s => s | _ => py_str_other v end.

(** [async_update_schedule] up to [async_request_refresh()]: the keys found
    in [data] are copied into [self.config] ([str(...)[:5]] for the two
    times) and the custom schedule is [data["temperatureSchedule"]] or
    [None]. *)
Definition async_update_schedule (c : coordinator) (data : dict) : coordinator :=
  let upd (cfg : dict) (k : string) (f : pyval -> pyval) :=
    match dict_get data k with Some v => dict_set cfg k (f v) | None => cfg end in
  let cfg := upd (config c) "homeSize" (fun v => v) in
  let cfg := upd cfg "homeTemperature" (fun v => v) in
  let cfg := upd cfg "location" (fun v => v) in
  let cfg := upd cfg "savingsLevel" (fun v => v) in
  let cfg := upd cfg "timeAway" (fun v => PStr (substring 0 5 (py_str v))) in
  let cfg := upd cfg "timeHome" (fun v => PStr (substring 0 5 (py_str v))) in
  mkCoordinator cfg (heat_up_rate c) (cool_down_rate c) (thermal_learning c)
    (match dict_get data "temperatureSchedule" with Some v => v | None => PNone end).

End UpdateSchedule.

(** *** [CurveControlThermostat] ([climate.py]) *)

(** [if not self._thermostat_entity_id] *)
Definition entity_configured (thermostat_entity_id : option string) : bool :=
  match thermostat_entity_id with Some e => negb (String.eqb e "") | None => false end.

(** What one run of [_check_and_apply_schedule] does. *)
Inductive apply_outcome :=
| NoAction
| SetTemperature (temperature : pyval) (* [_apply_setpoint_immediately(temperature)] *)
| ApplyRaises.

(** [_check_and_apply_schedule]; [hour] and [minute] are those read by
    [get_current_setpoint], [state] the attributes of the thermostat's state
    when [hass.states.get] finds one. [abs(optimal - current) > 0.1] raises
    [TypeError] unless both are numbers. *)
Definition check_and_apply_schedule (thermostat_entity_id : option string)
  (optimization_results : option dict) (optimization_enabled : bool)
  (hour minute : nat) (state : option dict) : apply_outcome :=
  if negb (entity_configured thermostat_entity_id) then NoAction else
  match optimization_results with
  | None => NoAction
  | Some res =>
    if negb (truthy (PDict res)) then NoAction else
    if negb optimization_enabled then NoAction else
    match get_current_setpoint optimization_results hour minute with
    | Raises => ApplyRaises
    | Returns optimal_setpoint =>
      if negb (truthy optimal_setpoint) then NoAction else
      match state with
      | None => NoAction
      | Some attributes =>
        match dict_get_default attributes "temperature" PNone with
        | PNone => SetTemperature optimal_setpoint
        | PNum current =>
          match optimal_setpoint with
          | PNum optimal =>
            if Qltb (1 # 10) (Qabs (optimal - current)) then SetTemperature optimal_setpoint
            else NoAction
          | _ => ApplyRaises
          end
        | _ => ApplyRaises
        end
      end
    end
  end.

(** The [target_temperature] property; [target] is [self._target_temperature]. *)
Definition target_temperature (optimization_enabled : bool) (optimization_results : option dict)
  (hour minute : nat) (target : pyval) (thermostat_entity_id : option string)
  (state : option dict) : py_result :=
  let fallback :=
    if truthy target then Returns target else
    if entity_configured thermostat_entity_id then
      match state with
      | Some attributes =>
        let t := dict_get_default attributes "temperature" PNone in
        if truthy t then Returns t else Returns PNone
      | None => Returns PNone
      end
    else Returns PNone in
  if optimization_enabled then
    match get_current_setpoint optimization_results hour minute with
    | Raises => Raises
    | Returns setpoint => if truthy setpoint then Returns setpoint else fallback
    end
  else fallback.

(** *** Sensors ([sensor.py]) *)

(** [f"{n:02d}"] *)
Definition format_02d (n : nat) : string :=
  let digits := NilEmpty.string_of_uint (Nat.to_uint n) in
  if Nat.ltb (String.length digits) 2 then ("0" ++ digits)%string else digits.

(** [CurveControlCurrentIntervalSensor.native_value] at [hour:minute]. *)
Definition current_interval_label (hour minute : nat) : string :=
  let interval := (hour * 2 + minute / 30)%nat in
  let start_hour := (interval / 2)%nat in
  let start_min := ((interval mod 2) * 30)%nat in
  let end_hour := ((interval + 1) / 2)%nat in
  let end_min := (((interval + 1) mod 2) * 30)%nat in
  let end_hour := if Nat.eqb end_hour 24 then 0%nat else end_hour in
  (format_02d start_hour ++ ":" ++ format_02d start_min ++ " - " ++
   format_02d end_hour ++ ":" ++ format_02d end_min)%string.

(** [time_labels] of [CurveControlScheduleChartSensor.extra_state_attributes]. *)
Definition chart_time_labels : list string :=
  map (fun i => (format_02d (i / 2) ++ ":" ++ format_02d ((i mod 2) * 30))%string) (seq 0 48).

(** [location == 1] *)
Definition location_is_1 (location : pyval) : bool :=
  match location with PNum q => Qeq_bool q 1 | _ => false end.

(** [CurveControlCurrentIntervalSensor._get_rate_period] *)
Definition get_rate_period (interval : nat) (location : pyval) : string :=
  let hour := (interval / 2)%nat in
  if location_is_1 location then
    if Nat.leb 16 hour && Nat.ltb hour 21 then "On-Peak"
    else if (Nat.leb 6 hour && Nat.ltb hour 16) || (Nat.leb 21 hour && Nat.ltb hour 24)
    then "Off-Peak"
    else "Super Off-Peak"
  else "Standard".

(** [price_map.get(label, 0.35)] *)
Definition price_map_get (label : string) : Q :=
  if String.eqb label "Super Off-Peak" then 15 # 100
  else if String.eqb label "Off-Peak" then 25 # 100
  else if String.eqb label "Standard" then 35 # 100
  else if String.eqb label "On-Peak" then 55 # 100
  else if String.eqb label "Peak" then 55 # 100
  else 35 # 100.

(** The label of one interval in
    [CurveControlScheduleChartSensor._generate_pricing_with_values]. *)
Definition pricing_label (location : pyval) (i : nat) : string :=
  let hour := (i / 2)%nat in
  if location_is_1 location then
    if Nat.leb 16 hour && Nat.ltb hour 21 then "On-Peak"
    else if (Nat.leb 6 hour && Nat.ltb hour 16) || (Nat.leb 21 hour && Nat.ltb hour 24)
    then "Off-Peak"
    else "Super Off-Peak"
  else
    if Nat.leb 17 hour && Nat.ltb hour 21 then "Peak"
    else if (Nat.leb 9 hour && Nat.ltb hour 17) || (Nat.leb 21 hour && Nat.ltb hour 23)
    then "Standard"
    else "Off-Peak".

(** [_generate_pricing_with_values]: [(pricing_labels, pricing_values)]. *)
Definition generate_pricing_with_values (location : pyval) : list string * list Q :=
  let labels := map (pricing_label location) (seq 0 48) in
  (labels, map price_map_get labels).

(** ** Concrete instances used by the witnesses *)

(** Any text format with a left inverse will do for the witnesses; the
    hexadecimal one of the Standard Library comes with its round-trip lemma. *)
Definition isoformat_hex (t : Z) : string := HexString.of_Z t.
Definition fromisoformat_hex (str : string) : option Z := Some (HexString.to_Z str).

(** [float(s)] rejecting every string. *)
Definition str_to_float_none (str : string) : option Q := None.

(** The last [n] items of a list. *)
Definition lastn {A} (n : nat) (l : list A) : list A := skipn (length l - n) l.

(** * Properties *)

(** ** Bounded deque *)

Lemma skipn_app_le {A} (k : nat) (l r : list A) :
  (k <= length l)%nat -> skipn k (l ++ r) = skipn k l ++ r.
Proof.
  intros Hk. rewrite skipn_app.
  replace (k - length l)%nat with 0%nat by lia. reflexivity.
Qed.

Lemma length_lastn {A} (n : nat) (l : list A) : (length (lastn n l) <= n)%nat.
Proof. unfold lastn. rewrite length_skipn. lia. Qed.

Lemma lastn_short {A} (n : nat) (l : list A) : (length l <= n)%nat -> lastn n l = l.
Proof.
  intros H. unfold lastn. replace (length l - n)%nat with 0%nat by lia.
  reflexivity.
Qed.

Lemma deque_append_length {A} (n : nat) (d : list A) (x : A) :
  (length d <= n)%nat -> (length (deque_append n d x) <= n)%nat.
Proof.
  intros H. unfold deque_append.
  destruct (Nat.ltb n (length (d ++ [x]))) eqn:E.
  - apply Nat.ltb_lt in E. rewrite length_app in E; simpl in E.
    destruct d as [|y d']; simpl in *; [lia|].
    rewrite length_app; simpl. lia.
  - apply Nat.ltb_ge in E. exact E.
Qed.

Lemma deque_append_full {A} (n : nat) (d : list A) (x : A) :
  length d = n -> (0 < n)%nat -> deque_append n d x = tl d ++ [x].
Proof.
  intros H Hn. unfold deque_append. rewrite length_app; simpl.
  replace (Nat.ltb n (length d + 1)) with true
    by (symmetry; apply Nat.ltb_lt; lia).
  destruct d; simpl in *; [lia | reflexivity].
Qed.

(** Appending to the last [n] items keeps the last [n] items. *)
Lemma deque_append_lastn {A} (n : nat) (l : list A) (x : A) :
  deque_append n (lastn n l) x = lastn n (l ++ [x]).
Proof.
  unfold deque_append, lastn. rewrite !length_app, !length_skipn; simpl.
  destruct (Nat.lt_ge_cases (length l) n) as [Hle | Hgt].
  - replace (length l - n)%nat with 0%nat by lia.
    replace (length l + 1 - n)%nat with 0%nat by lia. simpl.
    replace (Nat.ltb n (length l - 0 + 1)) with false
      by (symmetry; apply Nat.ltb_ge; lia).
    reflexivity.
  - replace (Nat.ltb n (length l - (length l - n) + 1)) with true
      by (symmetry; apply Nat.ltb_lt; lia).
    rewrite <- (skipn_app_le (length l - n) l [x]) by lia.
    replace (length l + 1 - n)%nat with (S (length l - n)) by lia.
    rewrite <- (skipn_skipn 1 (length l - n)).
    reflexivity.
Qed.

(** Successive appends to an initially empty deque keep the last [n] items
    appended, in insertion order. *)
Lemma deque_fold_lastn {A} (n : nat) (xs : list A) :
  fold_left (deque_append n) xs [] = lastn n xs.
Proof.
  induction xs as [|x xs IH] using rev_ind.
  - reflexivity.
  - rewrite fold_left_app; simpl. rewrite IH. apply deque_append_lastn.
Qed.

(** ** Frame lemmas of the manager operations *)

Section Frames.

Variable str_to_float : string -> option Q.
Variable isoformat : Z -> string.
Variable fromisoformat : string -> option Z.

(** The three partitions, each as a single filter of the recent points. *)
Definition heating_sample (p : ThermalDataPoint) : bool :=
  is_str (hvac_action p) "heating" && Qltb 0 (temp_change p).
Definition cooling_sample (p : ThermalDataPoint) : bool :=
  is_str (hvac_action p) "cooling" && Qltb (temp_change p) 0.
Definition natural_sample (p : ThermalDataPoint) : bool :=
  is_str (hvac_action p) "idle" || is_str (hvac_action p) "off".

Lemma is_str_other (v : pyval) (a b : string) :
  is_str v a = true -> a <> b -> is_str v b = false.
Proof.
  destruct v; simpl; try discriminate.
  intros Ha Hab. apply String.eqb_eq in Ha; subst.
  apply String.eqb_neq. exact Hab.
Qed.

(** The [if/elif/elif] loop computes the three filters. *)
Lemma classify_fold (l : list ThermalDataPoint) (hs cs ns : list Q) :
  fold_left classify_step l (hs, cs, ns) =
  (hs ++ map rate_per_30min (filter heating_sample l),
   cs ++ map (fun p => Qabs (rate_per_30min p)) (filter cooling_sample l),
   ns ++ map rate_per_30min (filter natural_sample l)).
Proof.
  revert hs cs ns. induction l as [|p l IH]; intros hs cs ns; simpl.
  - rewrite !app_nil_r. reflexivity.
  - unfold heating_sample, cooling_sample, natural_sample in *.
    destruct (is_str (hvac_action p) "heating") eqn:Hh.
    + rewrite (is_str_other _ _ "cooling" Hh) by discriminate.
      rewrite (is_str_other _ _ "idle" Hh) by discriminate.
      rewrite (is_str_other _ _ "off" Hh) by discriminate.
      destruct (Qltb 0 (temp_change p)); simpl;
        rewrite IH; rewrite <- ?app_assoc; reflexivity.
    + destruct (is_str (hvac_action p) "cooling") eqn:Hc.
      * rewrite (is_str_other _ _ "idle" Hc) by discriminate.
        rewrite (is_str_other _ _ "off" Hc) by discriminate.
        destruct (Qltb (temp_change p) 0); simpl;
          rewrite IH; rewrite <- ?app_assoc; reflexivity.
      * simpl. destruct (is_str (hvac_action p) "idle" || is_str (hvac_action p) "off");
          rewrite IH; rewrite <- ?app_assoc; reflexivity.
Qed.

Lemma calculate_rates_fields (s : manager) (now : Z) :
  let recent := recent_data now (thermal_data s) in
  let s' := async_calculate_rates isoformat s now in
  heating_rate s' = update_rate (map rate_per_30min (filter heating_sample recent)) (heating_rate s) /\
  cooling_rate s' = update_rate (map (fun p => Qabs (rate_per_30min p)) (filter cooling_sample recent))
                      (cooling_rate s) /\
  natural_rate s' = update_rate (map rate_per_30min (filter natural_sample recent)) (natural_rate s) /\
  thermal_data s' = thermal_data s /\
  last_measurement s' = last_measurement s /\
  last_calculation s' = Some now.
Proof.
  unfold async_calculate_rates. rewrite classify_fold. simpl.
  repeat split; reflexivity.
Qed.

Lemma calculate_rates_thermal_data (s : manager) (now : Z) :
  thermal_data (async_calculate_rates isoformat s now) = thermal_data s.
Proof. apply (calculate_rates_fields s now). Qed.

(** The history after a processed state change. *)
Lemma process_thermal_data (s : manager) (attributes : dict) (now now_calc : Z) :
  thermal_data (async_process_state_change str_to_float isoformat s attributes now now_calc) =
  match py_float str_to_float (dict_get_default attributes "current_temperature" (PNum 0)),
        last_measurement s with
  | Some t, Some lm =>
    let interval := total_seconds (now - m_timestamp lm) / 60 in
    if Qle_bool MIN_INTERVAL_MINUTES interval && Qle_bool interval MAX_INTERVAL_MINUTES
       && Qle_bool MIN_TEMP_CHANGE (Qabs (t - m_temperature lm))
       && Qle_bool (Qabs (t - m_temperature lm)) MAX_TEMP_CHANGE
    then deque_append THERMAL_DATA_MAXLEN (thermal_data s)
           (mkThermalDataPoint now (m_temperature lm) t (m_hvac_action lm) interval)
    else thermal_data s
  | _, _ => thermal_data s
  end.
Proof.
  unfold async_process_state_change.
  destruct (py_float str_to_float _) as [t|]; [|reflexivity].
  destruct (last_measurement s) as [lm|]; [|reflexivity].
  cbv zeta.
  destruct (Qle_bool MIN_INTERVAL_MINUTES _ && Qle_bool _ MAX_INTERVAL_MINUTES); simpl;
    [|reflexivity].
  destruct (Qle_bool MIN_TEMP_CHANGE _ && Qle_bool _ MAX_TEMP_CHANGE); simpl;
    [|reflexivity].
  destruct (recalculation_due _ now); simpl; [|reflexivity].
  rewrite calculate_rates_thermal_data. reflexivity.
Qed.

Lemma load_points_length (d : list ThermalDataPoint) (items : list pyval) :
  (length d <= THERMAL_DATA_MAXLEN)%nat ->
  (length (fst (load_points fromisoformat d items)) <= THERMAL_DATA_MAXLEN)%nat.
Proof.
  revert d. induction items as [|it rest IH]; intros d Hd; simpl; [exact Hd|].
  destruct (load_point fromisoformat it); simpl; auto.
  apply IH, deque_append_length, Hd.
Qed.

Lemma load_thermal_data_length (s : manager) :
  (length (thermal_data s) <= THERMAL_DATA_MAXLEN)%nat ->
  (length (thermal_data (async_load_data fromisoformat s)) <= THERMAL_DATA_MAXLEN)%nat.
Proof.
  intros H. unfold async_load_data.
  destruct (store s) as [data|]; [|exact H].
  destruct (negb (truthy data)); [exact H|].
  destruct data as [| | | |kvs]; try exact H.
  destruct (py_iter _) as [items|]; [|exact H].
  pose proof (load_points_length (thermal_data s) items H) as Hl.
  destruct (load_points fromisoformat (thermal_data s) items) as [d aborted].
  simpl in Hl.
  destruct aborted; [exact Hl|].
  destruct (truthy _); [|exact Hl].
  destruct (dict_get_default kvs "last_calculation" PNone); try exact Hl.
  destruct (fromisoformat _); exact Hl.
Qed.

End Frames.

(** Every reachable manager holds at most [THERMAL_DATA_MAXLEN] points. *)
Lemma reachable_history_bounded str_to_float isoformat fromisoformat (s : manager) :
  reachable str_to_float isoformat fromisoformat s ->
  (length (thermal_data s) <= THERMAL_DATA_MAXLEN)%nat.
Proof.
  induction 1 as [stored | s _ IH | s attributes now _ IH
                 | s attributes now now_calc _ IH | s now _ IH | s _ IH].
  - simpl. unfold THERMAL_DATA_MAXLEN. lia.
  - apply load_thermal_data_length, IH.
  - unfold record_initial_state.
    destruct (py_float str_to_float _); exact IH.
  - rewrite process_thermal_data.
    destruct (py_float str_to_float _); [|exact IH].
    destruct (last_measurement s); [|exact IH].
    cbv zeta. destruct (_ && _ && _ && _); [|exact IH].
    apply deque_append_length, IH.
  - rewrite calculate_rates_thermal_data. exact IH.
  - exact IH.
Qed.

(** ** C5: the history is a FIFO ring buffer of capacity 1000 *)

(** C5. After any sequence of operations the history holds at most 1000
    points; successive insertions into the (initially empty) deque keep
    exactly the last 1000 points inserted, in insertion order; and an
    insertion into a full history evicts its oldest point. *)
Theorem history_bounded_fifo :
  (forall str_to_float isoformat fromisoformat (s : manager),
     reachable str_to_float isoformat fromisoformat s ->
     (length (thermal_data s) <= 1000)%nat) /\
  (forall xs : list ThermalDataPoint,
     fold_left (deque_append THERMAL_DATA_MAXLEN) xs [] = lastn 1000 xs) /\
  (forall (d : list ThermalDataPoint) (x : ThermalDataPoint),
     length d = 1000%nat -> deque_append THERMAL_DATA_MAXLEN d x = tl d ++ [x]).
Proof.
  split; [|split].
  - intros f iso fiso s Hs. exact (reachable_history_bounded f iso fiso s Hs).
  - intros xs. apply deque_fold_lastn.
  - intros d x Hd. apply deque_append_full; [exact Hd | unfold THERMAL_DATA_MAXLEN; lia].
Qed.

(** ** C1: the observation filter *)

(** C1. A processed state change appends a new point to the history exactly
    when a reference observation exists, the new temperature is a number,
    the interval since the reference is within [20, 60] minutes and the
    absolute temperature change is within [0.5, 10]; otherwise the history
    is unchanged. *)
Theorem process_appends_iff_valid_interval
  (str_to_float : string -> option Q) (isoformat : Z -> string)
  (s : manager) (attributes : dict) (now now_calc : Z) :
  let s' := async_process_state_change str_to_float isoformat s attributes now now_calc in
  let temp := py_float str_to_float (dict_get_default attributes "current_temperature" (PNum 0)) in
  let interval lm := total_seconds (now - m_timestamp lm) / 60 in
  let valid t lm := (20 <= interval lm <= 60 /\ 1 # 2 <= Qabs (t - m_temperature lm) <= 10)%Q in
  (forall t lm, temp = Some t -> last_measurement s = Some lm -> valid t lm ->
     thermal_data s' =
     deque_append 1000 (thermal_data s)
       (mkThermalDataPoint now (m_temperature lm) t (m_hvac_action lm) (interval lm))) /\
  ((~ exists t lm, temp = Some t /\ last_measurement s = Some lm /\ valid t lm) ->
     thermal_data s' = thermal_data s).
Proof.
  intros s' temp interval valid. unfold s'. rewrite process_thermal_data.
  fold temp. split.
  - intros t lm Ht Hlm [[H1 H2] [H3 H4]]. rewrite Ht, Hlm. cbv zeta.
    unfold MIN_INTERVAL_MINUTES, MAX_INTERVAL_MINUTES, MIN_TEMP_CHANGE, MAX_TEMP_CHANGE.
    unfold interval in H1, H2.
    rewrite (proj2 (Qle_bool_iff _ _) H1), (proj2 (Qle_bool_iff _ _) H2),
            (proj2 (Qle_bool_iff _ _) H3), (proj2 (Qle_bool_iff _ _) H4).
    reflexivity.
  - intros Hn. destruct temp as [t|] eqn:Ht; [|reflexivity].
    destruct (last_measurement s) as [lm|] eqn:Hlm; [|reflexivity].
    cbv zeta.
    destruct (_ && _ && _ && _) eqn:E; [|reflexivity].
    exfalso. apply Hn. exists t, lm.
    apply andb_prop in E as [E E4]. apply andb_prop in E as [E E3].
    apply andb_prop in E as [E1 E2].
    apply Qle_bool_iff in E1, E2, E3, E4.
    repeat split; assumption.
Qed.

(** ** C10: a point records the mode of the reference observation *)

(** C10. When a state change appends a point, the point's HVAC mode is the
    mode stored with the reference observation that starts the interval,
    whatever mode the new observation reports. *)
Theorem process_point_takes_reference_mode
  (str_to_float : string -> option Q) (isoformat : Z -> string)
  (s : manager) (attributes : dict) (now now_calc : Z) :
  let s' := async_process_state_change str_to_float isoformat s attributes now now_calc in
  thermal_data s' = thermal_data s \/
  exists lm t,
    last_measurement s = Some lm /\
    py_float str_to_float (dict_get_default attributes "current_temperature" (PNum 0)) = Some t /\
    thermal_data s' =
    deque_append THERMAL_DATA_MAXLEN (thermal_data s)
      (mkThermalDataPoint now (m_temperature lm) t (m_hvac_action lm)
         (total_seconds (now - m_timestamp lm) / 60)).
Proof.
  intros s'. unfold s'. rewrite process_thermal_data.
  destruct (py_float str_to_float _) as [t|] eqn:Ht; [|left; reflexivity].
  destruct (last_measurement s) as [lm|] eqn:Hlm; [|left; reflexivity].
  cbv zeta. destruct (_ && _ && _ && _); [|left; reflexivity].
  right. exists lm, t. repeat split; reflexivity.
Qed.

(** ** Recomputation of the rates *)

Lemma py_sum_nonneg_acc (l : list Q) (a : Q) :
  0 <= a -> Forall (fun q => 0 <= q) l -> 0 <= fold_left Qplus l a.
Proof.
  revert a. induction l as [|q l IH]; intros a Ha Hl; simpl; [exact Ha|].
  inversion Hl as [|? ? Hq Hl']; subst.
  apply IH; [|exact Hl']. rewrite <- (Qplus_0_l 0). apply Qplus_le_compat; assumption.
Qed.

Lemma py_mean_nonneg (l : list Q) :
  l <> [] -> Forall (fun q => 0 <= q) l ->
  0 <= py_sum l / inject_Z (Z.of_nat (length l)).
Proof.
  intros Hne Hl. apply Qle_shift_div_l.
  - destruct l as [|q l]; [congruence|].
    unfold Qlt; simpl. lia.
  - rewrite Qmult_0_l. apply py_sum_nonneg_acc; [apply Qle_refl | exact Hl].
Qed.

Lemma Qltb_false_iff (a b : Q) : Qltb a b = false <-> b <= a.
Proof.
  unfold Qltb. rewrite negb_false_iff. apply Qle_bool_iff.
Qed.

(** The fields of the state after a recomputation, with the recent points
    and the three partitions written as plain filters. *)
Lemma calculate_rates_fields_unfolded (isoformat : Z -> string) (s : manager) (now : Z) :
  let s' := async_calculate_rates isoformat s now in
  let recent := filter (fun p => Z.ltb (now - timedelta_days 7) (timestamp p)) (thermal_data s) in
  let heat := filter (fun p => is_str (hvac_action p) "heating" && Qltb 0 (temp_change p)) recent in
  let cool := filter (fun p => is_str (hvac_action p) "cooling" && Qltb (temp_change p) 0) recent in
  let natural := filter (fun p => is_str (hvac_action p) "idle" || is_str (hvac_action p) "off")
                   recent in
  heating_rate s' = update_rate (map rate_per_30min heat) (heating_rate s) /\
  cooling_rate s' = update_rate (map (fun p => Qabs (rate_per_30min p)) cool) (cooling_rate s) /\
  natural_rate s' = update_rate (map rate_per_30min natural) (natural_rate s) /\
  thermal_data s' = thermal_data s /\
  last_measurement s' = last_measurement s /\
  last_calculation s' = Some now.
Proof. exact (calculate_rates_fields isoformat s now). Qed.

(** ** C2: each regime's rate is the mean over its partition of the window *)

(** C2. A recomputation sets each regime's rate to the arithmetic mean of
    [rate_per_30min] over the points of the last 7 days that belong to the
    regime (heating: mode "heating" and a rise; cooling: mode "cooling" and
    a fall, absolute values; natural: mode "idle" or "off"), when the
    partition has at least 5 points; the cooling mean is then non-negative;
    a heating point without a rise or a cooling point without a fall belongs
    to no partition. *)
Theorem calculate_rates_rolling_means (isoformat : Z -> string) (s : manager) (now : Z) :
  let s' := async_calculate_rates isoformat s now in
  let recent := filter (fun p => Z.ltb (now - timedelta_days 7) (timestamp p)) (thermal_data s) in
  let heat := filter (fun p => is_str (hvac_action p) "heating" && Qltb 0 (temp_change p)) recent in
  let cool := filter (fun p => is_str (hvac_action p) "cooling" && Qltb (temp_change p) 0) recent in
  let natural := filter (fun p => is_str (hvac_action p) "idle" || is_str (hvac_action p) "off")
                   recent in
  let mean (l : list Q) := py_sum l / inject_Z (Z.of_nat (length l)) in
  heating_rate s' =
    (if Nat.leb 5 (length heat) then PNum (mean (map rate_per_30min heat))
     else heating_rate s) /\
  cooling_rate s' =
    (if Nat.leb 5 (length cool) then PNum (mean (map (fun p => Qabs (rate_per_30min p)) cool))
     else cooling_rate s) /\
  natural_rate s' =
    (if Nat.leb 5 (length natural) then PNum (mean (map rate_per_30min natural))
     else natural_rate s) /\
  ((5 <= length cool)%nat -> exists q, cooling_rate s' = PNum q /\ 0 <= q) /\
  (forall p, In p recent ->
     (is_str (hvac_action p) "heating" = true /\ temp_change p <= 0) \/
     (is_str (hvac_action p) "cooling" = true /\ 0 <= temp_change p) ->
     ~ In p heat /\ ~ In p cool /\ ~ In p natural).
Proof.
  intros s' recent heat cool natural mean.
  destruct (calculate_rates_fields_unfolded isoformat s now) as (Hh & Hc & Hn & _).
  fold s' recent heat cool natural in Hh, Hc, Hn.
  unfold update_rate, py_mean, MIN_SAMPLES_FOR_CALCULATION in Hh, Hc, Hn.
  split; [rewrite Hh; unfold mean; rewrite !length_map; reflexivity|].
  split; [rewrite Hc; unfold mean; rewrite !length_map; reflexivity|].
  split; [rewrite Hn; unfold mean; rewrite !length_map; reflexivity|].
  split.
  - intros H5. rewrite Hc.
    replace (Nat.leb 5 (length (map (fun p => Qabs (rate_per_30min p)) cool))) with true
      by (symmetry; apply Nat.leb_le; rewrite length_map; exact H5).
    eexists; split; [reflexivity|].
    apply py_mean_nonneg.
    + destruct cool; simpl in *; [lia | discriminate].
    + apply Forall_forall. intros q Hq. apply in_map_iff in Hq as [p [<- _]].
      apply Qabs_nonneg.
  - intros p Hin Hbad.
    unfold heat, cool, natural. rewrite !filter_In.
    destruct Hbad as [[Hm Hle] | [Hm Hle]].
    + rewrite (is_str_other _ _ "cooling" Hm) by discriminate.
      rewrite (is_str_other _ _ "idle" Hm) by discriminate.
      rewrite (is_str_other _ _ "off" Hm) by discriminate.
      rewrite (proj2 (Qltb_false_iff _ _) Hle), Hm. simpl.
      repeat split; intros [_ H]; discriminate.
    + rewrite (is_str_other _ _ "heating" Hm) by discriminate.
      rewrite (is_str_other _ _ "idle" Hm) by discriminate.
      rewrite (is_str_other _ _ "off" Hm) by discriminate.
      rewrite (proj2 (Qltb_false_iff _ _) Hle), Hm. simpl.
      repeat split; intros [_ H]; discriminate.
Qed.

(** ** C7: a regime short of samples keeps its rate *)

(** C7. In a recomputation, a regime whose partition of the last 7 days has
    fewer than 5 points keeps its previous rate (set or unset); apart from
    the rates of the regimes with enough points, the recomputation only sets
    [last_calculation] (and rewrites the stored snapshot): the history and
    the reference observation are unchanged. *)
Theorem calculate_rates_keeps_short_regimes (isoformat : Z -> string) (s : manager) (now : Z) :
  let s' := async_calculate_rates isoformat s now in
  let recent := filter (fun p => Z.ltb (now - timedelta_days 7) (timestamp p)) (thermal_data s) in
  let heat := filter (fun p => is_str (hvac_action p) "heating" && Qltb 0 (temp_change p)) recent in
  let cool := filter (fun p => is_str (hvac_action p) "cooling" && Qltb (temp_change p) 0) recent in
  let natural := filter (fun p => is_str (hvac_action p) "idle" || is_str (hvac_action p) "off")
                   recent in
  ((length heat < 5)%nat -> heating_rate s' = heating_rate s) /\
  ((length cool < 5)%nat -> cooling_rate s' = cooling_rate s) /\
  ((length natural < 5)%nat -> natural_rate s' = natural_rate s) /\
  thermal_data s' = thermal_data s /\
  last_measurement s' = last_measurement s /\
  last_calculation s' = Some now.
Proof.
  intros s' recent heat cool natural.
  destruct (calculate_rates_fields_unfolded isoformat s now) as (Hh & Hc & Hn & Ht & Hl & Hlc).
  fold s' recent heat cool natural in Hh, Hc, Hn, Ht, Hl, Hlc.
  unfold update_rate, MIN_SAMPLES_FOR_CALCULATION in Hh, Hc, Hn.
  rewrite !length_map in Hh, Hc, Hn.
  repeat split; try assumption; intros H4.
  - rewrite Hh. replace (Nat.leb 5 (length heat)) with false
      by (symmetry; apply Nat.leb_gt; exact H4). reflexivity.
  - rewrite Hc. replace (Nat.leb 5 (length cool)) with false
      by (symmetry; apply Nat.leb_gt; exact H4). reflexivity.
  - rewrite Hn. replace (Nat.leb 5 (length natural)) with false
      by (symmetry; apply Nat.leb_gt; exact H4). reflexivity.
Qed.

(** ** C8: the setpoint selector *)

(** C8. [get_current_setpoint] returns [None] when there are no optimization
    results, when [bestTempActual] is absent, null or empty; otherwise it
    returns the element of [bestTempActual] at slot [hour*2 + minute//30],
    or [None] when that slot is out of range. At 14:35 with 48 slots it
    returns slot 29. *)
Theorem current_setpoint_slot (optimization_results : option dict) (hour minute : nat) :
  ((optimization_results = None \/ optimization_results = Some []) ->
     get_current_setpoint optimization_results hour minute = Returns PNone) /\
  (forall res, optimization_results = Some res ->
     (dict_get res "bestTempActual" = None \/
      dict_get res "bestTempActual" = Some PNone \/
      dict_get res "bestTempActual" = Some (PList [])) ->
     get_current_setpoint optimization_results hour minute = Returns PNone) /\
  (forall res l, optimization_results = Some res ->
     dict_get res "bestTempActual" = Some (PList l) ->
     get_current_setpoint optimization_results hour minute =
     Returns (match nth_error l (hour * 2 + minute / 30)%nat with
              | Some v => v
              | None => PNone
              end)) /\
  (forall l, length l = 48%nat ->
     get_current_setpoint (Some [("bestTempActual", PList l)]) 14 35 =
     Returns (match nth_error l 29 with Some v => v | None => PNone end)).
Proof.
  assert (Hlist : forall res l h m, dict_get res "bestTempActual" = Some (PList l) ->
     get_current_setpoint (Some res) h m =
     Returns (match nth_error l (h * 2 + m / 30)%nat with Some v => v | None => PNone end)).
  { intros res l h m Hget. unfold get_current_setpoint.
    destruct res as [|kv res]; [discriminate|]. simpl negb. cbv iota.
    unfold dict_get_default. rewrite Hget.
    destruct l as [|x l]; [rewrite nth_error_nil; reflexivity|].
    change (negb (truthy (PList (x :: l)))) with false. cbv iota beta zeta.
    change (py_len (PList (x :: l))) with (Some (length (x :: l))). cbv iota beta.
    set (i := (h * 2 + m / 30)%nat).
    destruct (Nat.ltb i (length (x :: l))) eqn:E.
    - unfold py_index. destruct (nth_error (x :: l) i) eqn:En; [reflexivity|].
      apply Nat.ltb_lt in E. apply nth_error_None in En. lia.
    - apply Nat.ltb_ge in E. apply nth_error_None in E. rewrite E. reflexivity. }
  split; [|split; [|split]].
  - intros [-> | ->]; reflexivity.
  - intros res -> Hget. unfold get_current_setpoint.
    destruct (truthy (PDict res)); simpl; [|reflexivity].
    unfold dict_get_default.
    destruct Hget as [-> | [-> | ->]]; reflexivity.
  - intros res l -> Hget. apply Hlist. exact Hget.
  - intros l _. apply (Hlist _ l 14%nat 35%nat). reflexivity.
Qed.

(** ** C3: the fallback accessor *)

(** A history of five heating intervals of +1 degree over 30 minutes each,
    stored as [_async_save_data] writes it. *)
Definition MINUTE : Z := 60 * USEC_PER_SEC.

Definition cx_heating_point (i : Z) : ThermalDataPoint :=
  mkThermalDataPoint (i * 30 * MINUTE) 68 69 (PStr "heating") 30.

Definition cx_heating_points : list ThermalDataPoint :=
  map cx_heating_point [1; 2; 3; 4; 5]%Z.

Definition cx_stored_record : pyval :=
  PDict [("thermal_data", PList (map (point_to_json isoformat_hex) cx_heating_points))].

(** Load, recompute right after the fifth interval, recompute again eight
    days later. *)
Definition cx_first_calc : Z := 6 * 30 * MINUTE.
Definition cx_second_calc : Z := cx_first_calc + timedelta_days 8.

Definition cx_stale_state : manager :=
  async_calculate_rates isoformat_hex
    (async_calculate_rates isoformat_hex
       (async_load_data fromisoformat_hex (init_manager (Some cx_stored_record)))
       cx_first_calc)
    cx_second_calc.

(** C3 (as stated, refuted). Eight days after five heating samples were
    learned, the trailing window holds no heating sample, yet the accessor
    returns the learned rate 1, not the heating default 3 * HEAT_30MIN. *)
Lemma fallback_default_counterexample :
  reachable str_to_float_none isoformat_hex fromisoformat_hex cx_stale_state /\
  (length (filter heating_sample (recent_data cx_second_calc (thermal_data cx_stale_state))) < 5)%nat /\
  exists q, fst (fst (get_thermal_rates_with_fallback cx_stale_state)) = PNum q /\
            q == 1 /\ ~ (q == 3 * HEAT_30MIN).
Proof.
  split; [|split].
  - unfold cx_stale_state.
    apply reach_calculate, reach_calculate, reach_load, reach_init.
  - vm_compute. lia.
  - eexists. split; [vm_compute; reflexivity|].
    split; [vm_compute; reflexivity|].
    intros H. apply Qeq_bool_iff in H. vm_compute in H. discriminate.
Qed.

(** C3 (amended). The accessor never returns [None]: for each regime it
    returns the stored rate when one is set, and the regime's default when
    it is unset (heating 3 * HEAT_30MIN, cooling COOL_30MIN, natural
    HEAT_30MIN). *)
Theorem fallback_rates_defaults (s : manager) :
  let '(h, c, n) := get_thermal_rates_with_fallback s in
  h <> PNone /\ c <> PNone /\ n <> PNone /\
  (heating_rate s = PNone -> h = PNum (3 * HEAT_30MIN)) /\
  (heating_rate s <> PNone -> h = heating_rate s) /\
  (cooling_rate s = PNone -> c = PNum COOL_30MIN) /\
  (cooling_rate s <> PNone -> c = cooling_rate s) /\
  (natural_rate s = PNone -> n = PNum HEAT_30MIN) /\
  (natural_rate s <> PNone -> n = natural_rate s).
Proof.
  unfold get_thermal_rates_with_fallback.
  destruct (heating_rate s), (cooling_rate s), (natural_rate s);
    repeat split; intros; try discriminate; try congruence; reflexivity.
Qed.

(** ** C6: loading the legacy schema, and the save/load round trip *)

Section RoundTrip.

Variable isoformat : Z -> string.
Variable fromisoformat : string -> option Z.
(** [datetime.fromisoformat] inverts [datetime.isoformat]. *)
Hypothesis fromisoformat_isoformat : forall t, fromisoformat (isoformat t) = Some t.

Lemma load_point_to_json (p : ThermalDataPoint) :
  load_point fromisoformat (point_to_json isoformat p) = LOk p.
Proof.
  unfold load_point, point_to_json. simpl.
  rewrite fromisoformat_isoformat. simpl.
  destruct p; reflexivity.
Qed.

Lemma load_points_to_json (d pts : list ThermalDataPoint) :
  load_points fromisoformat d (map (point_to_json isoformat) pts) =
  (fold_left (deque_append THERMAL_DATA_MAXLEN) pts d, false).
Proof.
  revert d. induction pts as [|p pts IH]; intros d; simpl; [reflexivity|].
  rewrite load_point_to_json. apply IH.
Qed.

Lemma load_points_saved (pts : list ThermalDataPoint) :
  (length pts <= THERMAL_DATA_MAXLEN)%nat ->
  load_points fromisoformat [] (map (point_to_json isoformat) pts) = (pts, false).
Proof.
  intros H. rewrite load_points_to_json, deque_fold_lastn, lastn_short by exact H.
  reflexivity.
Qed.

End RoundTrip.

(** The rate fields and the history after a load whose point loop runs to
    its end. *)
Lemma load_fields (fromisoformat : string -> option Z) (s : manager) (kvs : dict)
  (items : list pyval) (d : list ThermalDataPoint) :
  store s = Some (PDict kvs) -> kvs <> [] ->
  py_iter (dict_get_default kvs "thermal_data" (PList [])) = Some items ->
  load_points fromisoformat (thermal_data s) items = (d, false) ->
  let s' := async_load_data fromisoformat s in
  thermal_data s' = d /\
  heating_rate s' = dict_get_default kvs "heating_rate" (dict_get_default kvs "heat_up_rate" PNone) /\
  cooling_rate s' = dict_get_default kvs "cooling_rate" (dict_get_default kvs "cool_down_rate" PNone) /\
  natural_rate s' = dict_get_default kvs "natural_rate" PNone.
Proof.
  intros Hs Hne Hit Hl. unfold async_load_data. rewrite Hs.
  destruct kvs as [|kv kvs']; [congruence|].
  change (negb (truthy (PDict (kv :: kvs')))) with false. cbv iota.
  rewrite Hit, Hl. cbv iota beta zeta.
  set (lc := dict_get_default (kv :: kvs') "last_calculation" PNone).
  destruct (truthy lc);
    [destruct lc as [| | str | |]; [| | destruct (fromisoformat str) | |] |];
    repeat split.
Qed.

(** C6. Loading a stored record with the legacy rate keys [heat_up_rate] and
    [cool_down_rate] (and no [heating_rate], [cooling_rate] or
    [natural_rate]) fills [heating_rate] and [cooling_rate] from them and
    leaves [natural_rate] unset, with its N <= 1000 points restored; and
    saving a manager then loading the record into a new manager restores
    the same points (timestamp, temperatures, mode, interval) and rates. *)
Theorem load_legacy_and_roundtrip (isoformat : Z -> string) (fromisoformat : string -> option Z)
  (Hiso : forall t, fromisoformat (isoformat t) = Some t) :
  (forall (kvs : dict) (pts : list ThermalDataPoint) (h c : pyval),
     (length pts <= 1000)%nat ->
     dict_get kvs "thermal_data" = Some (PList (map (point_to_json isoformat) pts)) ->
     dict_get kvs "heating_rate" = None ->
     dict_get kvs "cooling_rate" = None ->
     dict_get kvs "natural_rate" = None ->
     dict_get kvs "heat_up_rate" = Some h ->
     dict_get kvs "cool_down_rate" = Some c ->
     let s := async_load_data fromisoformat (init_manager (Some (PDict kvs))) in
     thermal_data s = pts /\ heating_rate s = h /\ cooling_rate s = c /\ natural_rate s = PNone) /\
  (forall s : manager,
     (length (thermal_data s) <= 1000)%nat ->
     let s' := async_load_data fromisoformat (init_manager (Some (save_record isoformat s))) in
     thermal_data s' = thermal_data s /\
     heating_rate s' = heating_rate s /\
     cooling_rate s' = cooling_rate s /\
     natural_rate s' = natural_rate s).
Proof.
  split.
  - intros kvs pts h c Hlen Htd Hhr Hcr Hnr Hhu Hcd s.
    assert (Hne : kvs <> []) by (intros ->; discriminate).
    assert (Hit : py_iter (dict_get_default kvs "thermal_data" (PList [])) =
                  Some (map (point_to_json isoformat) pts))
      by (unfold dict_get_default; rewrite Htd; reflexivity).
    destruct (load_fields fromisoformat (init_manager (Some (PDict kvs))) kvs _ pts
                eq_refl Hne Hit (load_points_saved isoformat fromisoformat Hiso pts Hlen))
      as (Ht & Hh & Hc & Hn).
    fold s in Ht, Hh, Hc, Hn.
    unfold dict_get_default in Hh, Hc, Hn.
    rewrite Hhr, Hhu in Hh. rewrite Hcr, Hcd in Hc. rewrite Hnr in Hn.
    repeat split; assumption.
  - intros s Hlen s'.
    destruct (load_fields fromisoformat (init_manager (Some (save_record isoformat s)))
                _ (map (point_to_json isoformat) (thermal_data s)) (thermal_data s)
                eq_refl ltac:(discriminate) eq_refl
                (load_points_saved isoformat fromisoformat Hiso _ Hlen))
      as (Ht & Hh & Hc & Hn).
    repeat split; assumption.
Qed.

Lemma fromisoformat_isoformat_hex (t : Z) : fromisoformat_hex (isoformat_hex t) = Some t.
Proof. unfold fromisoformat_hex, isoformat_hex. rewrite HexString.to_Z_of_Z. reflexivity. Qed.

(** A record in the legacy two-regime schema. *)
Definition cx_legacy_kvs : dict :=
  [("thermal_data", PList (map (point_to_json isoformat_hex) cx_heating_points));
   ("heat_up_rate", PNum (3 # 2));
   ("cool_down_rate", PNum 2);
   ("last_calculation", PStr (isoformat_hex cx_first_calc))].

Lemma load_legacy_and_roundtrip_witness :
  (forall t, fromisoformat_hex (isoformat_hex t) = Some t) /\
  (let s := async_load_data fromisoformat_hex (init_manager (Some (PDict cx_legacy_kvs))) in
   thermal_data s = cx_heating_points /\ heating_rate s = PNum (3 # 2) /\
   cooling_rate s = PNum 2 /\ natural_rate s = PNone).
Proof.
  split; [exact fromisoformat_isoformat_hex|].
  apply (proj1 (load_legacy_and_roundtrip isoformat_hex fromisoformat_hex
                  fromisoformat_isoformat_hex)).
  - apply Nat.leb_le. reflexivity.
  - reflexivity.
  - reflexivity.
  - reflexivity.
  - reflexivity.
  - reflexivity.
  - reflexivity.
Defined.

(** ** C4: the coordinator consuming the fallback accessor *)

(** The configuration the config flow stores by default, with a thermostat. *)
Definition cx_coordinator : coordinator :=
  mkCoordinator
    [("homeSize", PNum 2000); ("homeTemperature", PNum 72); ("location", PNum 1);
     ("timeAway", PStr "08:00"); ("timeHome", PStr "17:00"); ("savingsLevel", PNum 2)]
    (PNum HEAT_30MIN) (PNum COOL_30MIN) (Some (init_manager None)) PNone.

(** Without a thermostat the update does reach the POST, with the
    coordinator's default rates. *)
Example update_data_without_thermostat :
  exists c' req,
    async_update_data (fun _ => PNone)
      (mkCoordinator (config cx_coordinator) (PNum HEAT_30MIN) (PNum COOL_30MIN) None PNone)
      None = Posted c' req /\
    dict_get req "heatUpRate" = Some (PNum HEAT_30MIN) /\
    dict_get req "coolDownRate" = Some (PNum COOL_30MIN).
Proof. do 2 eexists. split; [reflexivity|]. split; reflexivity. Qed.

(** C4 (code bug). Whenever a thermal learning manager is configured, the
    update unpacks the three rates returned by
    [get_thermal_rates_with_fallback] into two names; the [ValueError] is
    turned into [UpdateFailed] and no request is sent. *)
Theorem update_data_fails_with_thermal_learning
  (build_30min_temperature_schedule : coordinator -> pyval)
  (c : coordinator) (thermostat_temp : option pyval) (tl : manager) :
  thermal_learning c = Some tl ->
  async_update_data build_30min_temperature_schedule c thermostat_temp = UpdateFailed.
Proof.
  intros Htl. unfold async_update_data.
  assert (Hc1 : forall c1 : coordinator, thermal_learning c1 = Some tl ->
            match thermal_learning c1 with
            | Some tl0 =>
              match unpack2 (tuple3_items (get_thermal_rates_with_fallback tl0)) with
              | Some (h, k) => Some (mkCoordinator (config c1) h k (thermal_learning c1)
                                       (custom_temperature_schedule c1))
              | None => None
              end
            | None => Some c1
            end = None).
  { intros c1 H1. rewrite H1.
    destruct (get_thermal_rates_with_fallback tl) as [[a b] d]. reflexivity. }
  destruct thermostat_temp as [t|]; [destruct (truthy t)|];
    rewrite Hc1; simpl; auto.
Qed.

Lemma update_data_fails_with_thermal_learning_witness :
  thermal_learning cx_coordinator = Some (init_manager None) /\
  async_update_data (fun _ => PNone) cx_coordinator None = UpdateFailed.
Proof.
  split; [reflexivity|].
  apply (update_data_fails_with_thermal_learning (fun _ => PNone) cx_coordinator None
           (init_manager None)).
  reflexivity.
Defined.

(** ** C9: malformed observations *)

(** A manager holding a reference observation at 70 degrees. *)
Definition cx_reference_state : manager :=
  set_last_measurement (init_manager None) (Some (mkMeasurement 0 70 (PStr "heating"))).

(** A state change whose attributes carry no [current_temperature]. *)
Definition cx_no_temperature : dict := [("hvac_action", PStr "heating")].

(** C9 (as stated, refuted). A state change without a temperature value is
    read as 0 degrees and replaces the reference observation. *)
Lemma missing_temperature_counterexample :
  let s' := async_process_state_change str_to_float_none isoformat_hex cx_reference_state
              cx_no_temperature (30 * MINUTE) (30 * MINUTE) in
  thermal_data s' = thermal_data cx_reference_state /\
  last_measurement s' = Some (mkMeasurement (30 * MINUTE) 0 (PStr "heating")) /\
  last_measurement s' <> last_measurement cx_reference_state.
Proof.
  vm_compute. split; [reflexivity|]. split; [reflexivity|].
  intros H. inversion H.
Qed.

(** C9 (amended). A state change whose temperature attribute is present but
    rejected by [float()] (null, non-numeric text, a list or a dict) raises
    nothing and changes nothing: no point, same reference, same rates. A
    state change without the attribute is read as 0 degrees, with its mode
    taken as reported (no mode is ever rejected), and becomes the new
    reference. *)
Theorem process_malformed_temperature
  (str_to_float : string -> option Q) (isoformat : Z -> string)
  (s : manager) (attributes : dict) (now now_calc : Z) :
  (forall v, dict_get attributes "current_temperature" = Some v ->
     py_float str_to_float v = None ->
     async_process_state_change str_to_float isoformat s attributes now now_calc = s) /\
  (dict_get attributes "current_temperature" = None ->
     last_measurement (async_process_state_change str_to_float isoformat s attributes now now_calc) =
     Some (mkMeasurement now 0 (dict_get_default attributes "hvac_action" (PStr "unknown")))).
Proof.
  split.
  - intros v Hv Hf. unfold async_process_state_change, dict_get_default.
    rewrite Hv, Hf. reflexivity.
  - intros Hn. unfold async_process_state_change.
    unfold dict_get_default at 1. rewrite Hn. simpl py_float. cbv iota beta zeta.
    destruct (last_measurement s); [|reflexivity].
    reflexivity.
Qed.

(** A heating interval ending in an idle observation is recorded as heating. *)
Example process_records_reference_mode_example :
  let s1 := async_process_state_change str_to_float_none isoformat_hex (init_manager None)
              [("current_temperature", PNum 68); ("hvac_action", PStr "heating")] 0 0 in
  let s2 := async_process_state_change str_to_float_none isoformat_hex s1
              [("current_temperature", PNum 69); ("hvac_action", PStr "idle")]
              (30 * MINUTE) (30 * MINUTE) in
  map hvac_action (thermal_data s2) = [PStr "heating"].
Proof. vm_compute. reflexivity. Qed.

(** * Further properties of the code *)

(** ** [ThermalLearningManager] *)



(** X1. When the thermal-learning sensor reads "Learning Complete"
    ([has_sufficient_data]), a recomputation at the same instant assigns a
    number to at least two of the three rates returned by
    [get_thermal_rates]. *)
Theorem learning_complete_sets_two_rates (isoformat : Z -> string) (s : manager) (now : Z) :
  thermal_learning_status (Some s) now = "Learning Complete" ->
  let '(h, c, n) := get_thermal_rates (async_calculate_rates isoformat s now) in
  (exists qh qc, h = PNum qh /\ c = PNum qc) \/
  (exists qh qn, h = PNum qh /\ n = PNum qn) \/
  (exists qc qn, c = PNum qc /\ n = PNum qn).
Proof.
  unfold thermal_learning_status. intros Hs.
  destruct (has_sufficient_data s now) eqn:Hsuf; [|discriminate]. clear Hs.
  destruct (calculate_rates_fields isoformat s now) as (Hh & Hc & Hn & _).
  unfold get_thermal_rates.
  rewrite Hh, Hc, Hn. unfold update_rate. rewrite !length_map.
  unfold has_sufficient_data in Hsuf. cbv zeta in Hsuf.
  unfold heating_sample, cooling_sample, natural_sample.
  destruct (Nat.leb MIN_SAMPLES_FOR_CALCULATION (length (filter _ (recent_data _ _)))) eqn:E1;
  destruct (Nat.leb MIN_SAMPLES_FOR_CALCULATION
              (length (filter (fun p => is_str (hvac_action p) "cooling" && _) _))) eqn:E2;
  destruct (Nat.leb MIN_SAMPLES_FOR_CALCULATION
              (length (filter (fun p => is_str (hvac_action p) "idle" || _) _))) eqn:E3;
  rewrite ?E1, ?E2, ?E3 in Hsuf; simpl in Hsuf; try discriminate;
  eauto 6.
Qed.


(** X3. The state-change listener ignores a missing state and the states
    "unavailable" and "unknown" (the manager is unchanged); for any other
    state whose [current_temperature] converts to a float, the reference
    observation becomes the new reading (its time, temperature, and mode or
    "unknown"), whether or not a point was stored. *)
Theorem listener_reference_update (str_to_float : string -> option Q) (isoformat : Z -> string)
  (s : manager) (new_state : option (string * dict)) (now now_calc : Z) :
  let s' := async_state_changed_listener str_to_float isoformat s new_state now now_calc in
  (forall state attributes, new_state = Some (state, attributes) ->
     state <> "unavailable" -> state <> "unknown" ->
     forall t, py_float str_to_float (dict_get_default attributes "current_temperature" (PNum 0))
               = Some t ->
     last_measurement s' =
       Some (mkMeasurement now t (dict_get_default attributes "hvac_action" (PStr "unknown")))) /\
  ((new_state = None \/ exists attributes, new_state = Some ("unavailable", attributes)
                     \/ new_state = Some ("unknown", attributes)) -> s' = s).
Proof.
  intros s'. unfold s', async_state_changed_listener. split.
  - intros state attributes -> Hna Hnu t Ht.
    rewrite (proj2 (String.eqb_neq _ _) Hna), (proj2 (String.eqb_neq _ _) Hnu). simpl.
    unfold async_process_state_change. rewrite Ht.
    destruct (last_measurement s); reflexivity.
  - intros [-> | [attributes [-> | ->]]]; reflexivity.
Qed.


(** *** Bounds kept from a fresh install *)

























(** *** Restart *)

Lemma load_last_measurement (fromisoformat : string -> option Z) (s : manager) :
  last_measurement (async_load_data fromisoformat s) = last_measurement s.
Proof.
  unfold async_load_data.
  destruct (store s) as [data|]; [|reflexivity].
  destruct (negb (truthy data)); [reflexivity|].
  destruct data as [| | | |kvs]; try reflexivity.
  destruct (py_iter _) as [items|]; [|reflexivity].
  destruct (load_points fromisoformat (thermal_data s) items) as [d aborted].
  destruct aborted; [reflexivity|].
  destruct (truthy _); [|reflexivity].
  destruct (dict_get_default kvs "last_calculation" PNone); try reflexivity.
  destruct (fromisoformat _); reflexivity.
Qed.

(** A recomputation only reads the history and the previous rates. *)
Lemma calculate_rates_same_inputs (isoformat : Z -> string) (s1 s2 : manager) (now : Z) :
  thermal_data s1 = thermal_data s2 -> heating_rate s1 = heating_rate s2 ->
  cooling_rate s1 = cooling_rate s2 -> natural_rate s1 = natural_rate s2 ->
  let r1 := async_calculate_rates isoformat s1 now in
  let r2 := async_calculate_rates isoformat s2 now in
  heating_rate r1 = heating_rate r2 /\ cooling_rate r1 = cooling_rate r2 /\
  natural_rate r1 = natural_rate r2.
Proof.
  intros Hd Hh Hc Hn r1 r2.
  destruct (calculate_rates_fields isoformat s1 now) as (Hh1 & Hc1 & Hn1 & _).
  destruct (calculate_rates_fields isoformat s2 now) as (Hh2 & Hc2 & Hn2 & _).
  fold r1 in Hh1, Hc1, Hn1. fold r2 in Hh2, Hc2, Hn2.
  rewrite Hh1, Hc1, Hn1, Hh2, Hc2, Hn2, Hd, Hh, Hc, Hn.
  repeat split.
Qed.

(** X7. A restart is transparent to the learned data: after [async_cleanup]
    of a manager holding at most 1000 points, a new manager over the same
    store, once set up, holds the same points in the same order and the
    rates the old manager would get from a recomputation at the same
    instant, with [last_calculation] at that instant; its reference
    observation is the thermostat's state at setup (none when there is no
    state or its temperature does not convert), not the old one. *)
Theorem restart_restores_learning (str_to_float : string -> option Q)
  (isoformat : Z -> string) (fromisoformat : string -> option Z)
  (Hiso : forall t, fromisoformat (isoformat t) = Some t)
  (s : manager) (initial_state : option dict) (now_init now_calc : Z) :
  (length (thermal_data s) <= 1000)%nat ->
  let s' := async_setup str_to_float isoformat fromisoformat
              (init_manager (store (async_cleanup isoformat s))) initial_state now_init now_calc in
  let r := async_calculate_rates isoformat s now_calc in
  thermal_data s' = thermal_data s /\
  heating_rate s' = heating_rate r /\ cooling_rate s' = cooling_rate r /\
  natural_rate s' = natural_rate r /\
  last_calculation s' = Some now_calc /\
  last_measurement s' =
    match initial_state with
    | Some attributes =>
      match py_float str_to_float (dict_get_default attributes "current_temperature" (PNum 0)) with
      | Some t => Some (mkMeasurement now_init t
                          (dict_get_default attributes "hvac_action" (PStr "unknown")))
      | None => None
      end
    | None => None
    end.
Proof.
  intros Hlen s' r.
  set (s0 := init_manager (store (async_cleanup isoformat s))).
  destruct (load_fields fromisoformat s0 _ _ (thermal_data s) eq_refl ltac:(discriminate) eq_refl
              (load_points_saved isoformat fromisoformat Hiso _ Hlen))
    as (Hd1 & Hh1 & Hc1 & Hn1).
  unfold dict_get_default in Hh1, Hc1, Hn1. simpl in Hh1, Hc1, Hn1.
  set (s1 := async_load_data fromisoformat s0) in *.
  pose proof (load_last_measurement fromisoformat s0) as Hm1. fold s1 in Hm1.
  set (s2 := match initial_state with
             | Some attributes => record_initial_state str_to_float s1 attributes now_init
             | None => s1
             end).
  assert (H2 : thermal_data s2 = thermal_data s1 /\ heating_rate s2 = heating_rate s1 /\
               cooling_rate s2 = cooling_rate s1 /\ natural_rate s2 = natural_rate s1 /\
               last_measurement s2 =
               match initial_state with
               | Some attributes =>
                 match py_float str_to_float
                         (dict_get_default attributes "current_temperature" (PNum 0)) with
                 | Some t => Some (mkMeasurement now_init t
                                     (dict_get_default attributes "hvac_action" (PStr "unknown")))
                 | None => None
                 end
               | None => None
               end).
  { unfold s2. destruct initial_state as [attributes|]; [|repeat split; exact Hm1].
    unfold record_initial_state.
    destruct (py_float str_to_float _); repeat split; exact Hm1. }
  destruct H2 as (Hd2 & Hh2 & Hc2 & Hn2 & Hm2).
  assert (Hs' : s' = async_calculate_rates isoformat s2 now_calc) by reflexivity.
  destruct (calculate_rates_same_inputs isoformat s2 s now_calc) as (Hh & Hc & Hn);
    [congruence | congruence | congruence | congruence |].
  destruct (calculate_rates_fields isoformat s2 now_calc) as (_ & _ & _ & Hd & Hm & Hlc).
  rewrite Hs'. fold r in Hh, Hc, Hn.
  repeat split; try assumption; congruence.
Qed.

(** The manager of [cx_heating_points] without rates. *)
Definition cx_learned_manager : manager :=
  mkManager cx_heating_points None PNone PNone PNone None None.

Lemma restart_restores_learning_witness :
  (forall t, fromisoformat_hex (isoformat_hex t) = Some t) /\
  (length (thermal_data cx_learned_manager) <= 1000)%nat /\
  thermal_data (async_setup str_to_float_none isoformat_hex fromisoformat_hex
                  (init_manager (store (async_cleanup isoformat_hex cx_learned_manager)))
                  None cx_second_calc cx_second_calc) = cx_heating_points.
Proof.
  split; [exact fromisoformat_isoformat_hex|].
  assert (Hlen : (length (thermal_data cx_learned_manager) <= 1000)%nat)
    by (apply Nat.leb_le; reflexivity).
  split; [exact Hlen|].
  exact (proj1 (restart_restores_learning str_to_float_none isoformat_hex fromisoformat_hex
                  fromisoformat_isoformat_hex cx_learned_manager None
                  cx_second_calc cx_second_calc Hlen)).
Defined.

(** ** [CurveControlCoordinator]: the comfort schedule *)

Lemma ascii_digit_le (c : ascii) (d : nat) : ascii_digit c = Some d -> (d <= 9)%nat.
Proof.
  unfold ascii_digit. destruct (Nat.leb 48 _ && Nat.leb _ 57) eqn:E; [|discriminate].
  intros H. injection H as <-. apply andb_prop in E as [_ E]. apply Nat.leb_le in E. lia.
Qed.

Lemma re_H_le (cs : list ascii) (h : nat) (r : list ascii) :
  In (h, r) (re_H cs) -> (h <= 23)%nat.
Proof.
  unfold re_H. rewrite !in_app_iff. intros [H | [H | H]].
  - destruct cs as [|c1 [|c2 r']]; try contradiction.
    destruct (ascii_digit c1) as [[|[|[|n]]]|]; try contradiction;
      destruct (ascii_digit c2) as [d|] eqn:Ed; try contradiction.
    destruct (Nat.leb d 3) eqn:E; [|contradiction].
    destruct H as [H|[]]. injection H as <- _. apply Nat.leb_le in E. lia.
  - destruct cs as [|c1 [|c2 r']]; try contradiction.
    destruct (ascii_digit c1) as [a|] eqn:Ea; try contradiction;
      destruct (ascii_digit c2) as [b|] eqn:Eb; try contradiction.
    destruct (Nat.leb a 1) eqn:E; [|contradiction].
    destruct H as [H|[]]. injection H as <- _. apply Nat.leb_le in E.
    apply ascii_digit_le in Eb. lia.
  - destruct cs as [|c1 r']; try contradiction.
    destruct (ascii_digit c1) as [a|] eqn:Ea; try contradiction.
    destruct H as [H|[]]. injection H as <- _. apply ascii_digit_le in Ea. lia.
Qed.

Lemma re_M_le (cs : list ascii) (m : nat) (r : list ascii) :
  re_M cs = Some (m, r) -> (m <= 59)%nat.
Proof.
  unfold re_M.
  destruct cs as [|c1 [|c2 r']]; try discriminate.
  - destruct (ascii_digit c1) as [a|] eqn:Ea; [|discriminate].
    intros H. injection H as <- _. apply ascii_digit_le in Ea. lia.
  - destruct (ascii_digit c1) as [a|] eqn:Ea;
      destruct (ascii_digit c2) as [b|] eqn:Eb; try discriminate.
    + destruct (Nat.leb a 5) eqn:E.
      * intros H. injection H as <- _. apply Nat.leb_le in E. apply ascii_digit_le in Eb. lia.
      * intros H. injection H as <- _. apply ascii_digit_le in Ea. lia.
    + intros H. injection H as <- _. apply ascii_digit_le in Ea. lia.
Qed.

Lemma re_match_HM_le (hs : list (nat * list ascii)) (h m : nat) (rest : list ascii) :
  (forall x, In x hs -> (fst x <= 23)%nat) ->
  re_match_HM hs = Some (h, m, rest) -> (h <= 23 /\ m <= 59)%nat.
Proof.
  induction hs as [|[h' r] hs IH]; intros Hall H; simpl in H; [discriminate|].
  assert (IH' : re_match_HM hs = Some (h, m, rest) -> (h <= 23 /\ m <= 59)%nat)
    by (apply IH; intros x Hx; apply Hall; right; exact Hx).
  destruct r as [|c r']; [exact (IH' H)|].
  destruct (Ascii.eqb c ":"%char); [|exact (IH' H)].
  destruct (re_M r') as [[m' rest']|] eqn:EM; [|exact (IH' H)].
  injection H as <- <- _. split.
  - apply (Hall (h', c :: r')). left. reflexivity.
  - exact (re_M_le _ _ _ EM).
Qed.

Lemma strptime_HM_le (str : string) (h m : nat) :
  strptime_HM str = Some (h, m) -> (h <= 23 /\ m <= 59)%nat.
Proof.
  unfold strptime_HM.
  destruct (re_match_HM _) as [[[h' m'] [|c r]]|] eqn:E; try discriminate.
  intros H. injection H as <- <-.
  refine (re_match_HM_le _ _ _ _ _ E).
  intros [h r] Hx. exact (re_H_le _ h r Hx).
Qed.

(** X8. [_time_to_30min_index] returns a slot of the day (0 to 47) for
    every configured value: a time [strptime] accepts gives hours 0-23 and
    minutes 0-59, anything else the default 16. *)
Theorem time_to_30min_index_in_day (time_str : pyval) :
  (time_to_30min_index time_str < 48)%nat.
Proof.
  unfold time_to_30min_index.
  destruct time_str as [| |str| |]; try (unfold INTERVALS_PER_DAY; lia).
  destruct (strptime_HM (substring 0 5 str)) as [[h m]|] eqn:E; [|lia].
  apply strptime_HM_le in E as [Hh Hm].
  apply Nat.Div0.div_lt_upper_bound. lia.
Qed.

Lemma string_app_assoc (x y z : string) : ((x ++ y) ++ z)%string = (x ++ (y ++ z))%string.
Proof. induction x as [|c x IH]; simpl; [reflexivity | rewrite IH; reflexivity]. Qed.

Lemma substring_app_prefix (x y : string) :
  substring 0 (String.length x) (x ++ y) = x.
Proof.
  induction x as [|c x IH]; simpl.
  - destruct y; reflexivity.
  - rewrite IH. reflexivity.
Qed.

Lemma forallb_seq_In (f : nat -> bool) (n i : nat) :
  forallb f (seq 0 n) = true -> (i < n)%nat -> f i = true.
Proof.
  intros H Hi. rewrite forallb_forall in H. apply H, in_seq. lia.
Qed.

(** The check of [time_to_30min_index_hhmm] on the 1440 times of a day. *)
Definition hhmm_index_check : bool :=
  forallb (fun h => forallb (fun m =>
    Nat.eqb (String.length (format_02d h ++ ":" ++ format_02d m)) 5 &&
    match strptime_HM (format_02d h ++ ":" ++ format_02d m) with
    | Some (h', m') => Nat.eqb h' h && Nat.eqb m' m
    | None => false
    end) (seq 0 60)) (seq 0 24).

Lemma hhmm_index_check_true : hhmm_index_check = true.
Proof. vm_compute. reflexivity. Qed.

Lemma time_index_hhmm (h m : nat) (suffix : string) :
  (h < 24)%nat -> (m < 60)%nat ->
  time_to_30min_index (PStr (format_02d h ++ ":" ++ format_02d m ++ suffix)) =
  ((h * 60 + m) / 30)%nat.
Proof.
  intros Hh Hm.
  pose proof (forallb_seq_In _ 24 h hhmm_index_check_true Hh) as H1. cbv beta in H1.
  pose proof (forallb_seq_In _ 60 m H1 Hm) as H2. cbv beta in H2.
  apply andb_prop in H2 as [Hlen Hp]. apply Nat.eqb_eq in Hlen.
  unfold time_to_30min_index.
  replace (format_02d h ++ ":" ++ format_02d m ++ suffix)%string
    with ((format_02d h ++ ":" ++ format_02d m) ++ suffix)%string
    by (rewrite !string_app_assoc; reflexivity).
  rewrite <- Hlen, substring_app_prefix.
  destruct (strptime_HM _) as [[h' m']|]; [|discriminate].
  apply andb_prop in Hp as [E1 E2]. apply Nat.eqb_eq in E1, E2. subst. reflexivity.
Qed.

(** X9. A time written ["HH:MM"] (hours 0-23 and minutes 0-59 on two
    digits), with any suffix such as [":SS"], is mapped to the slot
    [(60 * HH + MM) // 30]. *)
Theorem time_to_30min_index_hhmm (h m : nat) (suffix : string) :
  (h < 24)%nat -> (m < 60)%nat ->
  time_to_30min_index (PStr (format_02d h ++ ":" ++ format_02d m ++ suffix)) =
  ((h * 60 + m) / 30)%nat.
Proof. exact (time_index_hhmm h m suffix). Qed.

Lemma time_to_30min_index_hhmm_witness :
  (8 < 24)%nat /\ (30 < 60)%nat /\
  time_to_30min_index (PStr (format_02d 8%nat ++ ":" ++ format_02d 30%nat ++ ":00")) = 17%nat.
Proof.
  split; [lia|]. split; [lia|].
  exact (time_to_30min_index_hhmm 8%nat 30%nat ":00" ltac:(lia) ltac:(lia)).
Defined.

Lemma string_app_empty (x : string) : (x ++ "")%string = x.
Proof. induction x as [|c x IH]; simpl; [reflexivity | rewrite IH; reflexivity]. Qed.

(** [_calculate_savings_offset] on a hashable level. *)
Definition savings_offset_of (savings_level : pyval) : Q :=
  match savings_level with
  | PNum q => if Qeq_bool q 1 then 2 else if Qeq_bool q 2 then 6 else if Qeq_bool q 3 then 12 else 6
  | _ => 6
  end.

Lemma nth_error_map_seq {A} (f : nat -> A) (n i : nat) :
  (i < n)%nat -> nth_error (map f (seq 0 n)) i = Some (f i).
Proof.
  intros Hi. rewrite nth_error_map, nth_error_seq.
  replace (Nat.ltb i n) with true by (symmetry; apply Nat.ltb_lt; exact Hi).
  reflexivity.
Qed.

(** The 48 slots of the schedule built from a configuration with a numeric
    base temperature and a hashable savings level. *)
Lemma build_schedule_slots (config : dict) (b : Q) (away_time home_time level : pyval) :
  dict_get config "homeTemperature" = Some (PNum b) ->
  dict_get config "timeAway" = Some away_time ->
  dict_get config "timeHome" = Some home_time ->
  dict_get config "savingsLevel" = Some level ->
  (forall l, level <> PList l) -> (forall kvs, level <> PDict kvs) ->
  exists highs lows,
    build_30min_temperature_schedule config =
      Some (PDict [("highTemperatures", PList highs); ("lowTemperatures", PList lows);
                   ("intervalMinutes", PNum 30); ("totalIntervals", PNum 48)]) /\
    length highs = 48%nat /\ length lows = 48%nat /\
    forall i, (i < 48)%nat ->
      let away := Nat.leb (time_to_30min_index away_time) i &&
                  Nat.leb i (time_to_30min_index home_time) in
      let off := savings_offset_of level in
      nth_error highs i =
        Some (PNum (if away then b + off + DEADBAND_OFFSET else b + DEADBAND_OFFSET)) /\
      nth_error lows i =
        Some (PNum (if away then b - off - DEADBAND_OFFSET else b - DEADBAND_OFFSET)).
Proof.
  intros Hb Ha Hh Hl Hnl Hnd.
  assert (Hoff : calculate_savings_offset level = Some (savings_offset_of level)).
  { destruct level as [| |str|l|kvs]; try reflexivity.
    - exfalso. exact (Hnl l eq_refl).
    - exfalso. exact (Hnd kvs eq_refl). }
  unfold build_30min_temperature_schedule. rewrite Hb, Ha, Hh, Hl. cbv zeta.
  rewrite Hoff.
  eexists _, _. split; [reflexivity|].
  split; [rewrite length_map, length_seq; reflexivity|].
  split; [rewrite length_map, length_seq; reflexivity|].
  intros i Hi. unfold INTERVALS_PER_DAY.
  split; rewrite nth_error_map_seq by exact Hi; reflexivity.
Qed.

(** X10. With a numeric [homeTemperature] [b] and a savings level that is
    not a list or a dict, [_build_30min_temperature_schedule] returns 48 high
    and 48 low temperatures, with [intervalMinutes] 30 and [totalIntervals]
    48; each slot's band is centred on [b], of half-width 1.4 plus, for the
    slots from the away slot to the home slot inclusive, the savings offset,
    which is 2, 6 or 12 for the levels 1, 2 and 3 and 6 for any other level. *)
Theorem build_schedule_bands (config : dict) (b : Q) (away_time home_time level : pyval) :
  dict_get config "homeTemperature" = Some (PNum b) ->
  dict_get config "timeAway" = Some away_time ->
  dict_get config "timeHome" = Some home_time ->
  dict_get config "savingsLevel" = Some level ->
  (forall l, level <> PList l) -> (forall kvs, level <> PDict kvs) ->
  let off := savings_offset_of level in
  (level = PNum 1 -> off = 2) /\ (level = PNum 2 -> off = 6) /\ (level = PNum 3 -> off = 12) /\
  ((forall q, level = PNum q -> ~ q == 1 /\ ~ q == 2 /\ ~ q == 3) -> off = 6) /\
  exists highs lows,
    build_30min_temperature_schedule config =
      Some (PDict [("highTemperatures", PList highs); ("lowTemperatures", PList lows);
                   ("intervalMinutes", PNum 30); ("totalIntervals", PNum 48)]) /\
    length highs = 48%nat /\ length lows = 48%nat /\
    forall i, (i < 48)%nat ->
      let w := if Nat.leb (time_to_30min_index away_time) i &&
                  Nat.leb i (time_to_30min_index home_time)
               then off + (7 # 5) else 7 # 5 in
      exists hi lo, nth_error highs i = Some (PNum hi) /\ nth_error lows i = Some (PNum lo) /\
        hi == b + w /\ lo == b - w.
Proof.
  intros Hb Ha Hh Hl Hnl Hnd off.
  split; [intros ->; reflexivity|].
  split; [intros ->; reflexivity|].
  split; [intros ->; reflexivity|].
  split.
  { intros Hother. unfold off, savings_offset_of.
    destruct level as [|q| | |]; try reflexivity.
    destruct (Hother q eq_refl) as (H1 & H2 & H3).
    destruct (Qeq_bool q 1) eqn:E1; [apply Qeq_bool_iff in E1; contradiction|].
    destruct (Qeq_bool q 2) eqn:E2; [apply Qeq_bool_iff in E2; contradiction|].
    destruct (Qeq_bool q 3) eqn:E3; [apply Qeq_bool_iff in E3; contradiction|].
    reflexivity. }
  destruct (build_schedule_slots config b away_time home_time level Hb Ha Hh Hl Hnl Hnd)
    as (highs & lows & Hbuild & Hlh & Hll & Hslots).
  exists highs, lows. split; [exact Hbuild|]. split; [exact Hlh|]. split; [exact Hll|].
  intros i Hi w. destruct (Hslots i Hi) as [Hhi Hlo]. cbv zeta in Hhi, Hlo.
  unfold w. unfold DEADBAND_OFFSET in Hhi, Hlo. fold off in Hhi, Hlo.
  destruct (_ && _); (eexists _, _; split; [exact Hhi|]; split; [exact Hlo|]);
    split; ring.
Qed.

(** X11. An absence that crosses midnight gets no widened slot: when the
    away time ["HH:MM"] falls in a later half-hour of the day than the home
    time, every slot of the built schedule has the home band [b + 1.4] /
    [b - 1.4], whatever the savings level. *)
Theorem build_schedule_overnight_absence (config : dict) (b : Q) (level : pyval)
  (ha ma hh mh : nat) :
  (ha < 24)%nat -> (ma < 60)%nat -> (hh < 24)%nat -> (mh < 60)%nat ->
  ((hh * 60 + mh) / 30 < (ha * 60 + ma) / 30)%nat ->
  dict_get config "homeTemperature" = Some (PNum b) ->
  dict_get config "timeAway" = Some (PStr (format_02d ha ++ ":" ++ format_02d ma)) ->
  dict_get config "timeHome" = Some (PStr (format_02d hh ++ ":" ++ format_02d mh)) ->
  dict_get config "savingsLevel" = Some level ->
  (forall l, level <> PList l) -> (forall kvs, level <> PDict kvs) ->
  build_30min_temperature_schedule config =
    Some (PDict [("highTemperatures", PList (repeat (PNum (b + DEADBAND_OFFSET)) 48));
                 ("lowTemperatures", PList (repeat (PNum (b - DEADBAND_OFFSET)) 48));
                 ("intervalMinutes", PNum 30); ("totalIntervals", PNum 48)]).
Proof.
  intros Hha Hma Hhh Hmh Hlt Hb Ha Hh Hl Hnl Hnd.
  destruct (build_schedule_slots config b _ _ level Hb Ha Hh Hl Hnl Hnd)
    as (highs & lows & Hbuild & Hlh & Hll & Hslots).
  rewrite Hbuild.
  assert (Hidx : forall h m, (h < 24)%nat -> (m < 60)%nat ->
            time_to_30min_index (PStr (format_02d h ++ ":" ++ format_02d m)) =
            ((h * 60 + m) / 30)%nat).
  { intros h m Hh' Hm'.
    rewrite <- (time_index_hhmm h m "" Hh' Hm'), string_app_empty. reflexivity. }
  assert (Hall : forall i, (i < 48)%nat ->
            nth_error highs i = Some (PNum (b + DEADBAND_OFFSET)) /\
            nth_error lows i = Some (PNum (b - DEADBAND_OFFSET))).
  { intros i Hi. destruct (Hslots i Hi) as [H1 H2]. cbv zeta in H1, H2.
    rewrite Hidx in H1, H2 by assumption. rewrite Hidx in H1, H2 by assumption.
    replace (Nat.leb ((ha * 60 + ma) / 30) i && Nat.leb i ((hh * 60 + mh) / 30)) with false
      in H1, H2 by (symmetry; apply andb_false_iff;
                    destruct (Nat.le_gt_cases ((ha * 60 + ma) / 30) i);
                    [right; apply Nat.leb_gt; lia | left; apply Nat.leb_gt; lia]).
    split; assumption. }
  assert (Hrep : forall (l : list pyval) v, length l = 48%nat ->
            (forall i, (i < 48)%nat -> nth_error l i = Some v) -> l = repeat v 48).
  { intros l v Hlen Hnth. apply nth_error_ext. intros i.
    destruct (Nat.lt_ge_cases i 48) as [Hi | Hi].
    - rewrite Hnth by exact Hi. symmetry. apply nth_error_repeat. exact Hi.
    - rewrite (proj2 (nth_error_None l i)) by lia.
      symmetry. apply nth_error_None. rewrite repeat_length. lia. }
  rewrite (Hrep highs _ Hlh (fun i Hi => proj1 (Hall i Hi))).
  rewrite (Hrep lows _ Hll (fun i Hi => proj2 (Hall i Hi))).
  reflexivity.
Qed.

(** The default configuration of the config flow. *)
Definition cx_config : dict :=
  [("homeSize", PNum 2000); ("homeTemperature", PNum 72); ("location", PNum 1);
   ("timeAway", PStr "08:00"); ("timeHome", PStr "17:00"); ("savingsLevel", PNum 2)].

(** An absence from 22:00 to 06:00. *)
Definition cx_overnight_config : dict :=
  [("homeTemperature", PNum 72); ("timeAway", PStr "22:00"); ("timeHome", PStr "06:00");
   ("savingsLevel", PNum 3)].

Lemma build_schedule_bands_witness :
  dict_get cx_config "homeTemperature" = Some (PNum 72) /\
  exists highs lows,
    build_30min_temperature_schedule cx_config =
      Some (PDict [("highTemperatures", PList highs); ("lowTemperatures", PList lows);
                   ("intervalMinutes", PNum 30); ("totalIntervals", PNum 48)]).
Proof.
  split; [reflexivity|].
  destruct (build_schedule_bands cx_config 72 (PStr "08:00") (PStr "17:00") (PNum 2)
              eq_refl eq_refl eq_refl eq_refl ltac:(discriminate) ltac:(discriminate))
    as (_ & _ & _ & _ & highs & lows & Hb & _).
  exists highs, lows. exact Hb.
Defined.

Lemma build_schedule_overnight_absence_witness :
  ((6 * 60 + 0) / 30 < (22 * 60 + 0) / 30)%nat /\
  build_30min_temperature_schedule cx_overnight_config =
    Some (PDict [("highTemperatures", PList (repeat (PNum (72 + DEADBAND_OFFSET)) 48));
                 ("lowTemperatures", PList (repeat (PNum (72 - DEADBAND_OFFSET)) 48));
                 ("intervalMinutes", PNum 30); ("totalIntervals", PNum 48)]).
Proof.
  split; [vm_compute; lia|].
  exact (build_schedule_overnight_absence cx_overnight_config 72 (PNum 3) 22 0 6 0
           ltac:(lia) ltac:(lia) ltac:(lia) ltac:(lia) ltac:(vm_compute; lia)
           eq_refl eq_refl eq_refl eq_refl ltac:(discriminate) ltac:(discriminate)).
Defined.

(** X12. [_build_30min_temperature_schedule] raises exactly when one of the
    keys [homeTemperature], [timeAway], [timeHome] and [savingsLevel] is
    missing from the configuration, when the home temperature is not a
    number (a string such as ["72"] included), or when the savings level is
    a list or a dict; malformed times never make it raise. *)
Theorem build_schedule_raises_iff (config : dict) :
  build_30min_temperature_schedule config = None <->
  dict_get config "homeTemperature" = None \/ dict_get config "timeAway" = None \/
  dict_get config "timeHome" = None \/ dict_get config "savingsLevel" = None \/
  (exists v, dict_get config "homeTemperature" = Some v /\ forall q, v <> PNum q) \/
  (exists v, dict_get config "savingsLevel" = Some v /\
             ((exists l, v = PList l) \/ (exists kvs, v = PDict kvs))).
Proof.
  unfold build_30min_temperature_schedule.
  destruct (dict_get config "homeTemperature") as [base|];
    [|split; [intros _; left; reflexivity | reflexivity]].
  destruct (dict_get config "timeAway") as [away|];
    [|split; [intros _; right; left; reflexivity | reflexivity]].
  destruct (dict_get config "timeHome") as [home|];
    [|split; [intros _; right; right; left; reflexivity | reflexivity]].
  destruct (dict_get config "savingsLevel") as [level|];
    [|split; [intros _; right; right; right; left; reflexivity | reflexivity]].
  cbv zeta.
  split.
  - intros H. right; right; right; right.
    destruct level as [|q|str|l|kvs].
    1-3: left; exists base; split; [reflexivity|]; intros q' ->; simpl in H; discriminate H.
    + right. eexists; split; [reflexivity|]. left. eexists; reflexivity.
    + right. eexists; split; [reflexivity|]. right. eexists; reflexivity.
  - intros [H | [H | [H | [H | [[v [Hv Hn]] | [v [Hv Hl]]]]]]]; try discriminate.
    + injection Hv as <-.
      destruct (calculate_savings_offset level); [|reflexivity].
      destruct base as [|b| | |]; try reflexivity. exfalso. exact (Hn b eq_refl).
    + injection Hv as <-.
      destruct Hl as [[l ->] | [kvs ->]]; reflexivity.
Qed.

(** ** [CurveControlCoordinator]: preferences from the frontend *)

Lemma dict_get_map_set (d : dict) (k k' : string) (v : pyval) :
  dict_get (map (fun kv => if String.eqb (fst kv) k then (k, v) else kv) d) k' =
  if String.eqb k k' then
    (if existsb (fun kv => String.eqb (fst kv) k) d then Some v else None)
  else dict_get d k'.
Proof.
  induction d as [|[k0 v0] d IH]; simpl.
  - destruct (String.eqb k k'); reflexivity.
  - destruct (String.eqb_spec k0 k) as [-> | Hne]; simpl.
    + destruct (String.eqb_spec k k') as [-> | Hne']; [reflexivity|].
      rewrite IH. reflexivity.
    + rewrite IH.
      destruct (String.eqb_spec k k') as [<- | Hne'].
      * rewrite (proj2 (String.eqb_neq k0 k) Hne). reflexivity.
      * reflexivity.
Qed.

Lemma dict_get_app (d e : dict) (k : string) :
  dict_get (d ++ e) k = match dict_get d k with Some x => Some x | None => dict_get e k end.
Proof.
  induction d as [|[k0 v0] d IH]; simpl; [reflexivity|].
  destruct (String.eqb k0 k); [reflexivity | exact IH].
Qed.

Lemma dict_get_absent (d : dict) (k : string) :
  existsb (fun kv => String.eqb (fst kv) k) d = false -> dict_get d k = None.
Proof.
  induction d as [|[k0 v0] d IH]; simpl; [reflexivity|].
  intros H. apply orb_false_iff in H as [H1 H2]. rewrite H1. exact (IH H2).
Qed.

(** [self.config[k] = v] followed by [self.config.get(k')]. *)
Lemma dict_get_set (d : dict) (k k' : string) (v : pyval) :
  dict_get (dict_set d k v) k' = if String.eqb k k' then Some v else dict_get d k'.
Proof.
  unfold dict_set.
  destruct (existsb (fun kv => String.eqb (fst kv) k) d) eqn:E.
  - rewrite dict_get_map_set, E. reflexivity.
  - rewrite dict_get_app.
    destruct (String.eqb_spec k k') as [<- | Hne].
    + rewrite (dict_get_absent d k E). simpl. rewrite String.eqb_refl. reflexivity.
    + destruct (dict_get d k'); [reflexivity|]. simpl.
      rewrite (proj2 (String.eqb_neq k k') Hne). reflexivity.
Qed.



Lemma update_data_posted_schedule (build : coordinator -> pyval) (c : coordinator)
      (thermostat_temp : option pyval) (c2 : coordinator) (request_data : dict) :
  async_update_data build c thermostat_temp = Posted c2 request_data ->
  custom_temperature_schedule c2 = custom_temperature_schedule c /\
  dict_get request_data "temperatureSchedule" =
    Some (if truthy (custom_temperature_schedule c2) then custom_temperature_schedule c2
          else build c2).
Proof.
  unfold async_update_data.
  set (c1 := match thermostat_temp with
             | Some t => if truthy t then _ else c | None => c end).
  assert (Hc1 : custom_temperature_schedule c1 = custom_temperature_schedule c).
  { subst c1. destruct thermostat_temp as [t|]; [destruct (truthy t)|]; reflexivity. }
  clearbody c1.
  destruct (thermal_learning c1) as [tl|].
  - destruct (unpack2 _) as [[h k]|]; [|discriminate].
    intros E. injection E as <- <-. split; [exact Hc1|].
    rewrite !dict_get_set. reflexivity.
  - intros E. injection E as <- <-. split; [exact Hc1|].
    rewrite !dict_get_set. reflexivity.
Qed.

(** X14. After [async_update_schedule], a refresh that reaches the POST sends
    as [temperatureSchedule] the schedule the frontend posted when it is
    truthy, and otherwise the schedule built from the configuration; it keeps
    the posted schedule (or [None]) as the custom schedule. *)
Theorem update_schedule_then_refresh (py_str_other : pyval -> string)
      (build : coordinator -> pyval) (c : coordinator) (data : dict)
      (thermostat_temp : option pyval) (c2 : coordinator) (request_data : dict) :
  async_update_data build (async_update_schedule py_str_other c data) thermostat_temp
    = Posted c2 request_data ->
  custom_temperature_schedule c2 =
    match dict_get data "temperatureSchedule" with Some v => v | None => PNone end /\
  dict_get request_data "temperatureSchedule" =
    Some (match dict_get data "temperatureSchedule" with
          | Some v => if truthy v then v else build c2
          | None => build c2
          end).
Proof.
  intros E. apply update_data_posted_schedule in E as [Hc Hreq].
  simpl in Hc. rewrite Hreq, Hc. split; [reflexivity|].
  destruct (dict_get data "temperatureSchedule"); reflexivity.
Qed.

(** ** [CurveControlThermostat]: applying the schedule *)

Lemma setpoint_truthy_results (optimization_results : option dict) (hour minute : nat)
      (v : pyval) :
  get_current_setpoint optimization_results hour minute = Returns v -> truthy v = true ->
  exists res, optimization_results = Some res /\ truthy (PDict res) = true.
Proof.
  unfold get_current_setpoint.
  destruct optimization_results as [res|]; [|intros E; injection E as <-; discriminate].
  destruct (truthy (PDict res)) eqn:Hr; cbn [negb].
  - intros _ _. exists res. split; [reflexivity | exact Hr].
  - intros E; injection E as <-; discriminate.
Qed.

(** X15. [_check_and_apply_schedule] applies a setpoint [v] exactly when a
    thermostat is configured, optimization is enabled, [get_current_setpoint]
    returns the truthy [v], the thermostat has a state, and its [temperature]
    attribute is missing or [None], or is a number more than [0.1] away from
    the numeric [v]. The check of [optimization_results] itself adds nothing:
    without results the setpoint is [None]. *)
Theorem check_and_apply_sets_iff (thermostat_entity_id : option string)
      (optimization_results : option dict) (optimization_enabled : bool)
      (hour minute : nat) (state : option dict) (v : pyval) :
  check_and_apply_schedule thermostat_entity_id optimization_results optimization_enabled
    hour minute state = SetTemperature v <->
  entity_configured thermostat_entity_id = true /\ optimization_enabled = true /\
  get_current_setpoint optimization_results hour minute = Returns v /\ truthy v = true /\
  exists attributes, state = Some attributes /\
    (dict_get_default attributes "temperature" PNone = PNone \/
     exists optimal current, v = PNum optimal /\
       dict_get_default attributes "temperature" PNone = PNum current /\
       Qltb (1 # 10) (Qabs (optimal - current)) = true).
Proof.
  unfold check_and_apply_schedule. split.
  - destruct (entity_configured thermostat_entity_id); cbn [negb]; [|discriminate].
    destruct optimization_results as [res|]; [|discriminate].
    destruct (truthy (PDict res)); cbn [negb]; [|discriminate].
    destruct optimization_enabled; cbn [negb]; [|discriminate].
    destruct (get_current_setpoint (Some res) hour minute) as [sp|]; [|discriminate].
    destruct (truthy sp) eqn:Ht; cbn [negb]; [|discriminate].
    destruct state as [attributes|]; [|discriminate].
    destruct (dict_get_default attributes "temperature" PNone) as [|current| | |] eqn:Ha;
      try discriminate.
    + intros E; injection E as <-.
      repeat split; try assumption. exists attributes. split; [reflexivity|]. left; exact Ha.
    + destruct sp as [|optimal| | |]; try discriminate.
      destruct (Qltb (1 # 10) (Qabs (optimal - current))) eqn:Hq; [|discriminate].
      intros E; injection E as <-.
      repeat split; try assumption. exists attributes. split; [reflexivity|].
      right. exists optimal, current. repeat split; assumption.
  - intros (He & Hen & Hg & Ht & attributes & -> & Hat).
    destruct (setpoint_truthy_results _ _ _ _ Hg Ht) as (res & -> & Hr).
    rewrite He, Hr, Hen. cbn [negb]. rewrite Hg, Ht. cbn [negb].
    destruct Hat as [Hn | (optimal & current & -> & Hc & Hq)].
    + rewrite Hn. reflexivity.
    + rewrite Hc, Hq. reflexivity.
Qed.

Lemma check_and_apply_sets_inv (thermostat_entity_id : option string)
      (optimization_results : option dict) (optimization_enabled : bool)
      (hour minute : nat) (state : option dict) (v : pyval) :
  check_and_apply_schedule thermostat_entity_id optimization_results optimization_enabled
    hour minute state = SetTemperature v ->
  entity_configured thermostat_entity_id = true /\ optimization_enabled = true /\
  get_current_setpoint optimization_results hour minute = Returns v /\ truthy v = true /\
  exists attributes, state = Some attributes.
Proof.
  unfold check_and_apply_schedule.
  destruct (entity_configured thermostat_entity_id); cbn [negb]; [|discriminate].
  destruct optimization_results as [res|]; [|discriminate].
  destruct (truthy (PDict res)); cbn [negb]; [|discriminate].
  destruct optimization_enabled; cbn [negb]; [|discriminate].
  destruct (get_current_setpoint (Some res) hour minute) as [sp|]; [|discriminate].
  destruct (truthy sp) eqn:Ht; cbn [negb]; [|discriminate].
  destruct state as [attributes|]; [|discriminate].
  intros E.
  assert (Hv : sp = v).
  { destruct (dict_get_default attributes "temperature" PNone) as [|current| | |];
      try discriminate.
    - injection E as <-. reflexivity.
    - destruct sp as [|optimal| | |]; try discriminate.
      destruct (Qltb (1 # 10) (Qabs (optimal - current))); [|discriminate].
      injection E as <-. reflexivity. }
  subst sp. repeat split; try assumption. exists attributes; reflexivity.
Qed.

(** X16. Once a numeric setpoint [q] has been applied, the next check on the
    thermostat whose [temperature] attribute now holds [q] does nothing: the
    schedule is not applied twice. *)
Theorem check_and_apply_idempotent (thermostat_entity_id : option string)
      (optimization_results : option dict) (optimization_enabled : bool)
      (hour minute : nat) (attributes : dict) (q : Q) :
  check_and_apply_schedule thermostat_entity_id optimization_results optimization_enabled
    hour minute (Some attributes) = SetTemperature (PNum q) ->
  check_and_apply_schedule thermostat_entity_id optimization_results optimization_enabled
    hour minute (Some (dict_set attributes "temperature" (PNum q))) = NoAction.
Proof.
  intros E.
  destruct (check_and_apply_sets_inv _ _ _ _ _ _ _ E) as (He & Hen & Hg & Ht & _).
  destruct (setpoint_truthy_results _ _ _ _ Hg Ht) as (res & -> & Hr).
  unfold check_and_apply_schedule.
  rewrite He, Hr, Hen. cbn [negb]. rewrite Hg, Ht. cbn [negb].
  unfold dict_get_default. rewrite dict_get_set, String.eqb_refl.
  unfold Qltb.
  assert (Hle : Qle_bool (Qabs (q - q)) (1 # 10) = true).
  { apply Qle_bool_iff. rewrite (Qabs_wd _ 0 (Qplus_opp_r q)). compute. discriminate. }
  rewrite Hle. reflexivity.
Qed.

(** X17. Whenever [_check_and_apply_schedule] applies a setpoint, the
    [target_temperature] property reports that same setpoint, whatever the
    manual target. *)
Theorem check_and_apply_matches_target (thermostat_entity_id : option string)
      (optimization_results : option dict) (optimization_enabled : bool)
      (hour minute : nat) (state : option dict) (target v : pyval) :
  check_and_apply_schedule thermostat_entity_id optimization_results optimization_enabled
    hour minute state = SetTemperature v ->
  target_temperature optimization_enabled optimization_results hour minute target
    thermostat_entity_id state = Returns v.
Proof.
  intros E.
  destruct (check_and_apply_sets_inv _ _ _ _ _ _ _ E) as (_ & -> & Hg & Ht & _).
  unfold target_temperature. rewrite Hg, Ht. reflexivity.
Qed.

(** A [bestTempActual] that is missing or a list of numbers and [None]s. *)
Definition numeric_schedule (res : dict) : Prop :=
  match dict_get res "bestTempActual" with
  | None => True
  | Some (PList l) => Forall (fun x => x = PNone \/ exists q, x = PNum q) l
  | Some _ => False
  end.

(** A thermostat [temperature] attribute that is missing, [None] or a number. *)
Definition numeric_attribute (attributes : dict) : Prop :=
  match dict_get attributes "temperature" with
  | None | Some PNone | Some (PNum _) => True
  | Some _ => False
  end.

Lemma setpoint_of_numeric_schedule (res : dict) (hour minute : nat) :
  numeric_schedule res ->
  exists v, get_current_setpoint (Some res) hour minute = Returns v /\
            (v = PNone \/ exists q, v = PNum q).
Proof.
  unfold numeric_schedule, get_current_setpoint, dict_get_default.
  destruct (truthy (PDict res)); cbn [negb];
    [|intros _; exists PNone; split; [reflexivity | left; reflexivity]].
  destruct (dict_get res "bestTempActual") as [[| | |l|]|]; try contradiction;
    [|intros _; exists PNone; split; [reflexivity | left; reflexivity]].
  intros Hl. cbn [truthy negb py_len].
  destruct l as [|x0 l0]; [exists PNone; split; [reflexivity | left; reflexivity]|].
  cbn [negb].
  destruct (Nat.ltb (hour * 2 + minute / 30) (length (x0 :: l0))) eqn:Hlt;
    [|exists PNone; split; [reflexivity | left; reflexivity]].
  apply Nat.ltb_lt in Hlt. cbn [py_index].
  destruct (nth_error (x0 :: l0) (hour * 2 + minute / 30)) as [x|] eqn:Hx.
  - exists x. split; [reflexivity|].
    rewrite Forall_forall in Hl. apply Hl. exact (nth_error_In _ _ Hx).
  - apply nth_error_None in Hx. lia.
Qed.

(** X18. When [bestTempActual] is missing or a list of numbers and [None]s,
    and the thermostat's [temperature] attribute is missing, [None] or a
    number, [_check_and_apply_schedule] never raises. *)
Theorem check_and_apply_never_raises (thermostat_entity_id : option string)
      (optimization_results : option dict) (optimization_enabled : bool)
      (hour minute : nat) (state : option dict) :
  (forall res, optimization_results = Some res -> numeric_schedule res) ->
  (forall attributes, state = Some attributes -> numeric_attribute attributes) ->
  check_and_apply_schedule thermostat_entity_id optimization_results optimization_enabled
    hour minute state <> ApplyRaises.
Proof.
  intros Hres Hst. unfold check_and_apply_schedule.
  destruct (entity_configured thermostat_entity_id); cbn [negb]; [|discriminate].
  destruct optimization_results as [res|]; [|discriminate].
  destruct (truthy (PDict res)); cbn [negb]; [|discriminate].
  destruct optimization_enabled; cbn [negb]; [|discriminate].
  destruct (setpoint_of_numeric_schedule res hour minute (Hres res eq_refl))
    as (v & Hg & Hv).
  rewrite Hg.
  destruct (truthy v) eqn:Ht; cbn [negb]; [|discriminate].
  destruct state as [attributes|]; [|discriminate].
  specialize (Hst attributes eq_refl). unfold numeric_attribute in Hst.
  unfold dict_get_default.
  destruct (dict_get attributes "temperature") as [[|current| | |]|];
    try contradiction; try discriminate.
  destruct Hv as [-> | [optimal ->]]; [discriminate Ht|].
  destruct (Qltb (1 # 10) (Qabs (optimal - current))); discriminate.
Qed.

(** ** Sensors *)

(** The check of [current_interval_label_in_chart] on the 1440 times of a day. *)
Definition interval_label_check : bool :=
  forallb (fun h => forallb (fun m =>
    let i := (h * 2 + m / 30)%nat in
    String.eqb (current_interval_label h m)
      (nth i chart_time_labels "" ++ " - " ++ nth ((i + 1) mod 48) chart_time_labels "")%string)
    (seq 0 60)) (seq 0 24).

Lemma interval_label_check_true : interval_label_check = true.
Proof. vm_compute. reflexivity. Qed.

(** X19. At any time of day, the current-interval sensor shows the chart's
    label of the current slot, a dash, and the chart's label of the next slot,
    the slot after [23:30] being [00:00]. *)
Theorem current_interval_label_in_chart (hour minute : nat) :
  (hour < 24)%nat -> (minute < 60)%nat ->
  let i := (hour * 2 + minute / 30)%nat in
  current_interval_label hour minute =
    (nth i chart_time_labels "" ++ " - " ++ nth ((i + 1) mod 48) chart_time_labels "")%string.
Proof.
  intros Hh Hm i.
  pose proof (forallb_seq_In _ 24 hour interval_label_check_true Hh) as H1. cbv beta in H1.
  pose proof (forallb_seq_In _ 60 minute H1 Hm) as H2. cbv beta zeta in H2.
  apply String.eqb_eq in H2. exact H2.
Qed.

(** X20. The rate period of the current-interval sensor agrees with the
    chart's pricing label of the same slot exactly when the location is [1],
    or the slot's hour is in [9, 17) or [21, 23); elsewhere the former says
    [Standard] and the latter [Peak] or [Off-Peak]. *)
Theorem rate_period_matches_chart_iff (interval : nat) (location : pyval) :
  get_rate_period interval location = pricing_label location interval <->
  location_is_1 location = true \/
  (9 <= interval / 2 < 17)%nat \/ (21 <= interval / 2 < 23)%nat.
Proof.
  unfold get_rate_period, pricing_label. cbv zeta.
  destruct (location_is_1 location).
  - split; [intros _; left; reflexivity | intros _; reflexivity].
  - set (hour := (interval / 2)%nat).
    destruct (Nat.leb_spec 17 hour) as [A1|A1]; destruct (Nat.ltb_spec hour 21) as [A2|A2];
      destruct (Nat.leb_spec 9 hour) as [A3|A3]; destruct (Nat.ltb_spec hour 17) as [A4|A4];
      destruct (Nat.leb_spec 21 hour) as [A5|A5]; destruct (Nat.ltb_spec hour 23) as [A6|A6];
      cbn [andb orb]; split; intros H;
      try (right; (left; lia) || (right; lia));
      try reflexivity;
      try discriminate H;
      try (exfalso; destruct H as [H | [H | H]]; [discriminate H | lia | lia]).
Qed.

(** ** Concrete runs of the further properties *)

(** A quiet interval: 70 to 69 degrees in 30 minutes, HVAC idle. *)
Definition cx_idle_point (i : Z) : ThermalDataPoint :=
  mkThermalDataPoint (i * 30 * MINUTE) 70 69 (PStr "idle") 30.

(** Five heating and five idle intervals. *)
Definition cx_complete_manager : manager :=
  mkManager (cx_heating_points ++ map cx_idle_point [6; 7; 8; 9; 10]%Z)
    None PNone PNone PNone None None.

Definition cx_complete_now : Z := 11 * 30 * MINUTE.

Lemma learning_complete_sets_two_rates_witness :
  thermal_learning_status (Some cx_complete_manager) cx_complete_now = "Learning Complete" /\
  let '(h, c, n) :=
    get_thermal_rates (async_calculate_rates isoformat_hex cx_complete_manager cx_complete_now) in
  (exists qh qc, h = PNum qh /\ c = PNum qc) \/
  (exists qh qn, h = PNum qh /\ n = PNum qn) \/
  (exists qc qn, c = PNum qc /\ n = PNum qn).
Proof.
  assert (H : thermal_learning_status (Some cx_complete_manager) cx_complete_now
              = "Learning Complete") by (vm_compute; reflexivity).
  split; [exact H|].
  exact (learning_complete_sets_two_rates isoformat_hex cx_complete_manager cx_complete_now H).
Defined.






(** The coordinator of the default configuration without thermal learning,
    and a frontend post with its own schedule. *)
Definition cx_plain_coordinator : coordinator :=
  mkCoordinator cx_config (PNum HEAT_30MIN) (PNum COOL_30MIN) None PNone.

Definition cx_posted_data : dict :=
  [("timeAway", PStr "09:00:00"); ("temperatureSchedule", PList [PNum 70])].

Definition cx_py_str (v : pyval) : string := "".

Definition cx_updated : coordinator :=
  async_update_schedule cx_py_str cx_plain_coordinator cx_posted_data.

Definition cx_request : dict :=
  dict_set (dict_set (dict_set (config cx_updated) "temperatureSchedule" (PList [PNum 70]))
    "heatUpRate" (PNum HEAT_30MIN)) "coolDownRate" (PNum COOL_30MIN).

Lemma update_schedule_then_refresh_witness :
  async_update_data (fun _ => PNone) cx_updated None = Posted cx_updated cx_request /\
  custom_temperature_schedule cx_updated =
    match dict_get cx_posted_data "temperatureSchedule" with Some v => v | None => PNone end /\
  dict_get cx_request "temperatureSchedule" =
    Some (match dict_get cx_posted_data "temperatureSchedule" with
          | Some v => if truthy v then v else PNone
          | None => PNone
          end).
Proof.
  assert (H : async_update_data (fun _ => PNone) cx_updated None = Posted cx_updated cx_request)
    by (vm_compute; reflexivity).
  split; [exact H|].
  exact (update_schedule_then_refresh cx_py_str (fun _ => PNone) cx_plain_coordinator
           cx_posted_data None cx_updated cx_request H).
Defined.

(** An optimization result holding 70 degrees for every slot, and a
    thermostat set to 72. *)
Definition cx_results : dict := [("bestTempActual", PList (repeat (PNum 70) 48))].

Definition cx_thermostat_attributes : dict :=
  [("temperature", PNum 72); ("current_temperature", PNum 71)].

Lemma check_and_apply_idempotent_witness :
  check_and_apply_schedule (Some "climate.home") (Some cx_results) true 8 45
    (Some cx_thermostat_attributes) = SetTemperature (PNum 70) /\
  check_and_apply_schedule (Some "climate.home") (Some cx_results) true 8 45
    (Some (dict_set cx_thermostat_attributes "temperature" (PNum 70))) = NoAction.
Proof.
  assert (H : check_and_apply_schedule (Some "climate.home") (Some cx_results) true 8 45
                (Some cx_thermostat_attributes) = SetTemperature (PNum 70))
    by (vm_compute; reflexivity).
  split; [exact H|].
  exact (check_and_apply_idempotent _ _ _ _ _ _ _ H).
Defined.

Lemma check_and_apply_matches_target_witness :
  check_and_apply_schedule (Some "climate.home") (Some cx_results) true 8 45
    (Some cx_thermostat_attributes) = SetTemperature (PNum 70) /\
  target_temperature true (Some cx_results) 8 45 (PNum 75) (Some "climate.home")
    (Some cx_thermostat_attributes) = Returns (PNum 70).
Proof.
  assert (H : check_and_apply_schedule (Some "climate.home") (Some cx_results) true 8 45
                (Some cx_thermostat_attributes) = SetTemperature (PNum 70))
    by (vm_compute; reflexivity).
  split; [exact H|].
  exact (check_and_apply_matches_target _ _ _ _ _ _ (PNum 75) _ H).
Defined.

Lemma check_and_apply_never_raises_witness :
  (forall res, Some cx_results = Some res -> numeric_schedule res) /\
  (forall attributes, Some cx_thermostat_attributes = Some attributes ->
     numeric_attribute attributes) /\
  check_and_apply_schedule (Some "climate.home") (Some cx_results) true 8 45
    (Some cx_thermostat_attributes) <> ApplyRaises.
Proof.
  assert (H1 : forall res, Some cx_results = Some res -> numeric_schedule res).
  { intros res E. injection E as <-. vm_compute.
    repeat (apply Forall_cons; [right; eexists; reflexivity|]). apply Forall_nil. }
  assert (H2 : forall attributes, Some cx_thermostat_attributes = Some attributes ->
                 numeric_attribute attributes).
  { intros attributes E. injection E as <-. vm_compute. exact I. }
  split; [exact H1|]. split; [exact H2|].
  exact (check_and_apply_never_raises _ _ _ _ _ _ H1 H2).
Defined.

Lemma current_interval_label_in_chart_witness :
  (23 < 24)%nat /\ (45 < 60)%nat /\
  let i := (23 * 2 + 45 / 30)%nat in
  current_interval_label 23 45 =
    (nth i chart_time_labels "" ++ " - " ++ nth ((i + 1) mod 48) chart_time_labels "")%string.
Proof.
  assert (H1 : (23 < 24)%nat) by lia.
  assert (H2 : (45 < 60)%nat) by lia.
  split; [exact H1|]. split; [exact H2|].
  exact (current_interval_label_in_chart 23 45 H1 H2).
Defined.
